(** * RAG-pdfChatbot front end: the request gateway ([api.ts]), the two
    session components ([Dashboard], [Chat]) and the login page.

    The asynchronous functions of the source are embedded as resumable tasks:
    a task runs on the shared world until it finishes or reaches an [await],
    where it hands back the request it waits for and its continuation.  An
    event loop interleaves suspended tasks, so that statements about what is
    in flight can be stated and evaluated. *)

From Stdlib Require Import ZArith Ascii String DecimalString.
From stdpp Require Import base option list strings gmap.

Local Open Scope Z_scope.

(** ** JavaScript strings

    A string of the source is a [string] of the Standard Library, one [ascii]
    per code unit; code units above 255 are outside the model. *)

Module JsString.

Definition code (c : ascii) : Z := Z.of_N (N_of_ascii c).

(** White space and line terminators of ECMAScript that fit one byte:
    TAB, LF, VT, FF, CR, SP and NBSP. *)
Definition isWhiteSpace (c : ascii) : bool :=
  let n := code c in
  ((9 <=? n) && (n <=? 13)) || (n =? 32) || (n =? 160).

Fixpoint trimStart (s : string) : string :=
  match s with
  | EmptyString => EmptyString
  | String c s' => if isWhiteSpace c then trimStart s' else s
  end.

Definition trimEnd (s : string) : string :=
  String.rev (trimStart (String.rev s)).

(** [String.prototype.trim] *)
Definition trim (s : string) : string := trimEnd (trimStart s).

Definition lowerChar (c : ascii) : ascii :=
  let n := code c in
  if ((65 <=? n) && (n <=? 90))
     || ((192 <=? n) && (n <=? 222) && negb (n =? 215))
  then ascii_of_N (Z.to_N (n + 32))
  else c.

(** [String.prototype.toLowerCase] *)
Fixpoint toLowerCase (s : string) : string :=
  match s with
  | EmptyString => EmptyString
  | String c s' => String (lowerChar c) (toLowerCase s')
  end.

Fixpoint startsWith (s p : string) {struct p} : bool :=
  match p, s with
  | EmptyString, _ => true
  | String _ _, EmptyString => false
  | String a p', String b s' => if Ascii.eqb a b then startsWith s' p' else false
  end.

(** [String.prototype.endsWith] *)
Definition endsWith (s suffix : string) : bool :=
  startsWith (String.rev s) (String.rev suffix).

(** [String.prototype.includes] *)
Fixpoint includes (s sub : string) : bool :=
  startsWith s sub
  || match s with
     | EmptyString => false
     | String _ s' => includes s' sub
     end.

(** A string of white space only, the empty one included. *)
Definition blank (s : string) : bool :=
  forallb isWhiteSpace (list_ascii_of_string s).

(** Truthiness of a string: every string but the empty one. *)
Definition truthy (s : string) : bool :=
  match s with EmptyString => false | String _ _ => true end.

(** Decimal rendering of an integer, as a template literal or
    [Number.prototype.toString] renders it. *)
Definition ofZ (z : Z) : string := NilZero.string_of_int (Z.to_int z).

End JsString.

(** ** Values of the language, as far as parsed JSON bodies produce them *)

(** JSON numbers are represented by integers: on the paths embedded here a
    fractional number behaves as a non-zero integer does. *)
#[warnings="-register-all"]
Inductive JsValue : Type :=
| JUndefined
| JNull
| JBool (b : bool)
| JNum (n : Z)
| JStr (s : string)
| JArr (items : list JsValue)
| JObj (fields : list (string * JsValue)).

(** What the source throws and catches: an [Error] object, of which the
    handlers look at the class ([instanceof TypeError]) and the message. *)
Record JsError : Type := mkError { isTypeError : bool; message : string }.

Definition Error (msg : string) : JsError := mkError false msg.
Definition TypeError (msg : string) : JsError := mkError true msg.

Inductive Outcome (A : Type) : Type :=
| Return (a : A)
| Throw (e : JsError).
Arguments Return {A} a.
Arguments Throw {A} e.

(** Faults raised by the engine itself; their wording differs between
    engines and is a parameter of the platform. *)
Inductive Fault : Type :=
| ReadOfNullish (base : JsValue) (prop : string)
| NotAFunction (callee : string).

Module Js.

(** [ToBoolean] *)
Definition truthy (v : JsValue) : bool :=
  match v with
  | JUndefined | JNull => false
  | JBool b => b
  | JNum n => negb (n =? 0)
  | JStr s => JsString.truthy s
  | JArr _ | JObj _ => true
  end.

Definition nullish (v : JsValue) : bool :=
  match v with
  | JUndefined | JNull => true
  | _ => false
  end.

Fixpoint assoc (k : string) (fields : list (string * JsValue)) : JsValue :=
  match fields with
  | [] => JUndefined
  | (k', v) :: rest => if String.eqb k k' then v else assoc k rest
  end.

(** [v.k] for a value that is neither [null] nor [undefined]; none of the
    property names read by the source is inherited from a prototype. *)
Definition prop (v : JsValue) (k : string) : JsValue :=
  match v with
  | JObj fields => assoc k fields
  | _ => JUndefined
  end.

(** [a || b] *)
Definition or (a b : JsValue) : JsValue := if truthy a then a else b.

(** [v === s] for a string [s] *)
Definition strictEqStr (v : JsValue) (s : string) : bool :=
  match v with
  | JStr s' => String.eqb s' s
  | _ => false
  end.


Fixpoint join (sep : string) (parts : list string) : string :=
  match parts with
  | [] => ""
  | [p] => p
  | p :: rest => p +:+ sep +:+ join sep rest
  end.

(** [ToString], as a template literal applies it. *)
Fixpoint toString (v : JsValue) : string :=
  match v with
  | JUndefined => "undefined"
  | JNull => "null"
  | JBool true => "true"
  | JBool false => "false"
  | JNum n => JsString.ofZ n
  | JStr s => s
  | JArr items =>
      join ","
        ((fix each (l : list JsValue) : list string :=
            match l with
            | [] => []
            | JUndefined :: l' | JNull :: l' => "" :: each l'
            | x :: l' => toString x :: each l'
            end) items)
  | JObj _ => "[object Object]"
  end.

End Js.

(** ** The platform

    What the browser supplies and the source only calls: numbers with their
    printing, parsing and sameness ([Object.is], by which React compares the
    dependencies of an effect), [btoa], and the wording of engine faults. *)
Class Platform : Type := {
  number : Type;
  parseFloat : string -> number;
  Number_toString : number -> string;
  Object_is : number -> number -> bool;
  Object_is_refl : forall x, Object_is x x = true;
  btoa : string -> Outcome string;
  faultMessage : Fault -> string;
}.

(** ** Requests and responses of [fetch] *)

Inductive Method : Type := GET | POST | DELETE.

Record File : Type := mkFile { fileName : string; fileSize : Z }.

Inductive Body `{Platform} : Type :=
| NoBody
| ChatBody (query : string) (temperature : number)
| LoginBody (username password : string)
| FormData (file : File).
Arguments NoBody {_}.
Arguments ChatBody {_}.
Arguments LoginBody {_}.
Arguments FormData {_}.

Record Request `{Platform} : Type := mkRequest {
  url : string;
  method : Method;
  headers : list (string * string);
  body : Body;
}.
Arguments mkRequest {_}.

(** A response carries its body as [response.json()] will deliver it: the
    parsed value, or the error the parse rejects with. *)
Record Response : Type := mkResponse {
  status : Z;
  statusText : string;
  json : Outcome JsValue;
}.

Definition ok (r : Response) : bool := (200 <=? status r) && (status r <=? 299).

Inductive FetchOutcome : Type :=
| Rejected (e : JsError)
| Responded (r : Response).

(** ** The world a task runs on, and tasks *)

Record World (S : Type) : Type := mkWorld {
  comp : S;                              (* state of the mounted component *)
  commits : list S;                      (* its successive values, oldest first *)
  authToken : option string;             (* [let authToken] of api.ts *)
  localStorage : gmap string string;
  now : Z;                               (* the clock, in milliseconds *)
  console : list string;
}.
Arguments mkWorld {S}.
Arguments comp {S}.
Arguments commits {S}.
Arguments authToken {S}.
Arguments localStorage {S}.
Arguments now {S}.
Arguments console {S}.

Inductive Step `{Platform} (S A : Type) : Type :=
| Finished (r : Outcome A) (w : World S)
| AwaitFetch (req : Request) (w : World S) (k : FetchOutcome -> World S -> Step S A)
| AwaitTimer (ms : Z) (w : World S) (k : World S -> Step S A).
Arguments Finished {_ S A}.
Arguments AwaitFetch {_ S A}.
Arguments AwaitTimer {_ S A}.

Definition Task `{Platform} (S A : Type) : Type := World S -> Step S A.

Module Task.
Section Combinators.
Context `{Platform} {S : Type}.

Definition ret {A} (a : A) : Task S A := fun w => Finished (Return a) w.
Definition throw {A} (e : JsError) : Task S A := fun w => Finished (Throw e) w.

Fixpoint bindStep {A B} (s : Step S A) (f : A -> Task S B) : Step S B :=
  match s with
  | Finished (Return a) w => f a w
  | Finished (Throw e) w => Finished (Throw e) w
  | AwaitFetch req w k => AwaitFetch req w (fun o w' => bindStep (k o w') f)
  | AwaitTimer ms w k => AwaitTimer ms w (fun w' => bindStep (k w') f)
  end.

Definition bind {A B} (m : Task S A) (f : A -> Task S B) : Task S B :=
  fun w => bindStep (m w) f.

(** [try { m } catch (error) { h error }] *)
Fixpoint catchStep {A} (s : Step S A) (h : JsError -> Task S A) : Step S A :=
  match s with
  | Finished (Return a) w => Finished (Return a) w
  | Finished (Throw e) w => h e w
  | AwaitFetch req w k => AwaitFetch req w (fun o w' => catchStep (k o w') h)
  | AwaitTimer ms w k => AwaitTimer ms w (fun w' => catchStep (k w') h)
  end.

Definition tryCatch {A} (m : Task S A) (h : JsError -> Task S A) : Task S A :=
  fun w => catchStep (m w) h.

(** [try { m } finally { f }]: [f] runs however [m] ends, and the outcome
    of [m] stands unless [f] throws itself. *)
Fixpoint finallyStep {A} (s : Step S A) (f : Task S unit) : Step S A :=
  match s with
  | Finished r w => bindStep (f w) (fun _ w' => Finished r w')
  | AwaitFetch req w k => AwaitFetch req w (fun o w' => finallyStep (k o w') f)
  | AwaitTimer ms w k => AwaitTimer ms w (fun w' => finallyStep (k w') f)
  end.

Definition tryFinally {A} (m : Task S A) (f : Task S unit) : Task S A :=
  fun w => finallyStep (m w) f.

Definition lift {A} (o : Outcome A) : Task S A := fun w => Finished o w.

Definition getWorld : Task S (World S) := fun w => Finished (Return w) w.
Definition getState : Task S S := fun w => Finished (Return (comp w)) w.
Definition Date_now : Task S Z := fun w => Finished (Return (now w)) w.

(** A state setter called with an updater, [setX(prev => f prev)]. *)
Definition setState (f : S -> S) : Task S unit :=
  fun w =>
    let s' := f (comp w) in
    Finished (Return tt)
      (mkWorld s' (commits w ++ [s']) (authToken w) (localStorage w) (now w) (console w)).

(** A change of what the page holds outside the state cells. *)
Definition mutate (f : S -> S) : Task S unit :=
  fun w =>
    Finished (Return tt)
      (mkWorld (f (comp w)) (commits w) (authToken w) (localStorage w) (now w) (console w)).

Definition console_error (label : string) : Task S unit :=
  fun w =>
    Finished (Return tt)
      (mkWorld (comp w) (commits w) (authToken w) (localStorage w) (now w)
         (console w ++ [label])).

(** [await fetch(...)] *)
Definition fetch (req : Request) : Task S Response :=
  fun w =>
    AwaitFetch req w
      (fun o w' =>
         match o with
         | Rejected e => Finished (Throw e) w'
         | Responded r => Finished (Return r) w'
         end).

(** [await new Promise(resolve => setTimeout(resolve, ms))] *)
Definition sleep (ms : Z) : Task S unit :=
  fun w => AwaitTimer ms w (fun w' => Finished (Return tt) w').

(** [v.prop] *)
Definition getProp (v : JsValue) (k : string) : Task S JsValue :=
  if Js.nullish v then throw (TypeError (faultMessage (ReadOfNullish v k)))
  else ret (Js.prop v k).

End Combinators.
End Task.

Declare Scope task_scope.
Delimit Scope task_scope with task.
Notation "x <- m ;; k" := (Task.bind m (fun x => k))
  (at level 100, m at next level, right associativity) : task_scope.
Notation "m ;;; k" := (Task.bind m (fun _ => k))
  (at level 100, right associativity) : task_scope.

Local Open Scope task_scope.

(** ** api.ts: the request gateway *)

Module Api.
Section Gateway.
Context `{Platform} {S : Type}.

Definition API_BASE : string := "".

Definition setAuthToken (token : option string) : Task S unit :=
  fun w =>
    Finished (Return tt)
      (mkWorld (comp w) (commits w) token (localStorage w) (now w) (console w)).

Definition getAuthToken : Task S (option string) :=
  fun w => Finished (Return (authToken w)) w.

(** [...(authToken && { "Authorization": `Basic ${authToken}` })]: nothing is
    spread for [null] or for the empty string. *)
Definition authHeader (token : option string) : list (string * string) :=
  match token with
  | Some t => if JsString.truthy t then [("Authorization", "Basic " +:+ t)] else []
  | None => []
  end.

Definition statusLine (prefix : string) (r : Response) : string :=
  prefix +:+ JsString.ofZ (status r) +:+ " " +:+ statusText r.

(** [await response.json()] *)
Definition readJson (r : Response) : Task S JsValue := Task.lift (json r).

(** The body of a response that is [ok] and parses, which is what the
    gateway takes for success. *)
Definition accepted (o : FetchOutcome) : option JsValue :=
  match o with
  | Rejected _ => None
  | Responded r =>
      if ok r then match json r with Return v => Some v | Throw _ => None end
      else None
  end.

Definition CONNECTION_FAILED : string :=
  "Connection failed. Please check if the backend server is running and accessible.".

Definition isFetchTypeError (error : JsError) : bool :=
  isTypeError error && JsString.includes (message error) "fetch".

Definition sendMessage (message_ : string) (temperature : number) : Task S JsValue :=
  Task.tryCatch
    (token <- getAuthToken ;;
     response <- Task.fetch
       (mkRequest (API_BASE +:+ "/chat") POST
          (("Content-Type", "application/json") :: authHeader token)
          (ChatBody message_ temperature)) ;;
     (if negb (ok response) then
        if status response =? 401 then
          Task.throw (Error "Authentication required. Please login.")
        else if status response =? 404 then
          Task.throw (Error "Service not found. Please check if the backend server is running.")
        else if 500 <=? status response then
          Task.throw (Error "Server error. Please try again later.")
        else
          Task.throw (Error (statusLine "Backend error: " response))
      else Task.ret tt) ;;;
     data <- readJson response ;;
     r <- Task.getProp data "response" ;;
     Task.ret (JObj [("response", r)]))
    (fun error =>
       Task.console_error "Error sending message:" ;;;
       if isFetchTypeError error then
         Task.ret (JObj [("response", JStr CONNECTION_FAILED)])
       else if JsString.truthy (message error) then
         Task.ret (JObj [("response", JStr (message error))])
       else
         Task.ret (JObj [("response", JStr "An unexpected error occurred. Please try again.")])).

Definition uploadFile (file : File) : Task S JsValue :=
  Task.tryCatch
    (token <- getAuthToken ;;
     response <- Task.fetch
       (mkRequest (API_BASE +:+ "/upload") POST (authHeader token) (FormData file)) ;;
     (if negb (ok response) then
        if status response =? 401 then
          Task.throw (Error "Authentication required. Please login.")
        else if status response =? 413 then
          Task.throw (Error "File too large. Please upload a smaller file.")
        else
          Task.throw (Error (statusLine "Upload failed: " response))
      else Task.ret tt) ;;;
     data <- readJson response ;;
     Task.ret data)
    (fun error =>
       Task.console_error "Error uploading file:" ;;;
       if isFetchTypeError error then
         Task.ret (JObj [("error", JStr CONNECTION_FAILED)])
       else if JsString.truthy (message error) then
         Task.ret (JObj [("error", JStr (message error))])
       else
         Task.ret (JObj [("error", JStr "File upload failed. Please try again.")])).

Definition loginFailure (msg : string) : JsValue :=
  JObj [("success", JBool false); ("message", JStr msg)].

Definition login (username password : string) : Task S JsValue :=
  Task.tryCatch
    (response <- Task.fetch
       (mkRequest (API_BASE +:+ "/login") POST
          [("Content-Type", "application/json")] (LoginBody username password)) ;;
     (if negb (ok response) then
        if status response =? 401 then
          Task.throw (Error "Invalid username or password.")
        else if 500 <=? status response then
          Task.throw (Error "Server error. Please try again later.")
        else
          Task.throw (Error (statusLine "Login failed: " response))
      else Task.ret tt) ;;;
     data <- readJson response ;;
     success <- Task.getProp data "success" ;;
     (if Js.truthy success then
        token <- Task.lift (btoa (username +:+ ":" +:+ password)) ;;
        setAuthToken (Some token)
      else Task.ret tt) ;;;
     Task.ret data)
    (fun error =>
       Task.console_error "Login error:" ;;;
       if isFetchTypeError error then
         Task.ret (loginFailure CONNECTION_FAILED)
       else if JsString.truthy (message error) then
         Task.ret (loginFailure (message error))
       else
         Task.ret (loginFailure "Login failed. Please check your credentials.")).

Definition getStatus : Task S JsValue :=
  Task.tryCatch
    (token <- getAuthToken ;;
     response <- Task.fetch
       (mkRequest (API_BASE +:+ "/status") GET (authHeader token) NoBody) ;;
     (if negb (ok response) then
        if status response =? 401 then
          Task.throw (Error "Authentication required. Please login.")
        else if status response =? 404 then
          Task.throw (Error "Service not found. Please check if the backend server is running.")
        else if 500 <=? status response then
          Task.throw (Error "Server error. Please try again later.")
        else
          Task.throw (Error (statusLine "Status check failed: " response))
      else Task.ret tt) ;;;
     readJson response)
    (fun error =>
       Task.console_error "Error fetching status:" ;;;
       if isFetchTypeError error then Task.ret JNull else Task.ret JNull).

Definition listDocuments : Task S JsValue :=
  Task.tryCatch
    (token <- getAuthToken ;;
     response <- Task.fetch
       (mkRequest (API_BASE +:+ "/documents") GET (authHeader token) NoBody) ;;
     (if negb (ok response) then
        if status response =? 401 then
          Task.throw (Error "Authentication required. Please login.")
        else if 500 <=? status response then
          Task.throw (Error "Server error. Please try again later.")
        else
          Task.throw (Error (statusLine "Document list failed: " response))
      else Task.ret tt) ;;;
     readJson response)
    (fun error =>
       Task.console_error "Error fetching documents:" ;;;
       Task.throw error).

Definition deleteDocument (documentId : string) : Task S JsValue :=
  Task.tryCatch
    (token <- getAuthToken ;;
     response <- Task.fetch
       (mkRequest (API_BASE +:+ "/documents/" +:+ documentId) DELETE
          (authHeader token) NoBody) ;;
     (if negb (ok response) then
        if status response =? 401 then
          Task.throw (Error "Authentication required. Please login.")
        else if 500 <=? status response then
          Task.throw (Error "Server error. Please try again later.")
        else
          Task.throw (Error (statusLine "Document deletion failed: " response))
      else Task.ret tt) ;;;
     readJson response)
    (fun error =>
       Task.console_error "Error deleting document:" ;;;
       Task.throw error).

End Gateway.
End Api.

(** ** Data of the session components *)

Inductive Role : Type := user | assistant.

(** A [Date]: built from the clock, or from a value of a parsed body. *)
Inductive JsDate : Type :=
| DateAt (ms : Z)
| DateFrom (v : JsValue).

Module MessageItem.
Record t : Type := mk {
  id : string;
  role : Role;
  content : JsValue;
  timestamp : JsDate;
}.
End MessageItem.

(** The fields of a document hold what the code stores in them: literals for
    a document made on upload, and the unchecked properties of the listing
    for a document refreshed from the server. *)
Module Document.
Record t : Type := mk {
  id : JsValue;
  name : JsValue;
  size : JsValue;
  uploadDate : JsDate;
  status : JsValue;
}.
Definition processing : JsValue := JStr "processing".
Definition completed : JsValue := JStr "completed".
Definition failed : JsValue := JStr "failed".
Definition withStatus (st : JsValue) (doc : t) : t :=
  mk (id doc) (name doc) (size doc) (uploadDate doc) st.
End Document.

(** ** The Dashboard component (second half of components/LandingPage.tsx) *)

Module Dashboard.

Inductive Tab : Type := chat | documents_tab | settings.

Section Component.
Context `{Platform}.

(** The state of the component: its [useState] cells, and the values of the
    three uncontrolled inputs of the Advanced Settings panel. *)
Record State : Type := mkState {
  messages : list MessageItem.t;
  inputValue : string;
  isUploading : bool;
  isProcessing : bool;
  activeTab : Tab;
  documents : list Document.t;
  temperature : number;
  model : string;
  darkMode : bool;
  uploadProgress : Z;
  processingStage : string;
  chunkSize : string;
  chunkOverlap : string;
  maxTokens : string;
}.

Definition setMessages (f : list MessageItem.t -> list MessageItem.t) : Task State unit :=
  Task.setState (fun st =>
    mkState (f (messages st)) (inputValue st) (isUploading st) (isProcessing st) (activeTab st)
      (documents st) (temperature st) (model st) (darkMode st) (uploadProgress st)
      (processingStage st) (chunkSize st) (chunkOverlap st) (maxTokens st)).

Definition setInputValue (f : string -> string) : Task State unit :=
  Task.setState (fun st =>
    mkState (messages st) (f (inputValue st)) (isUploading st) (isProcessing st) (activeTab st)
      (documents st) (temperature st) (model st) (darkMode st) (uploadProgress st)
      (processingStage st) (chunkSize st) (chunkOverlap st) (maxTokens st)).

Definition setIsUploading (f : bool -> bool) : Task State unit :=
  Task.setState (fun st =>
    mkState (messages st) (inputValue st) (f (isUploading st)) (isProcessing st) (activeTab st)
      (documents st) (temperature st) (model st) (darkMode st) (uploadProgress st)
      (processingStage st) (chunkSize st) (chunkOverlap st) (maxTokens st)).

Definition setIsProcessing (f : bool -> bool) : Task State unit :=
  Task.setState (fun st =>
    mkState (messages st) (inputValue st) (isUploading st) (f (isProcessing st)) (activeTab st)
      (documents st) (temperature st) (model st) (darkMode st) (uploadProgress st)
      (processingStage st) (chunkSize st) (chunkOverlap st) (maxTokens st)).

Definition setActiveTab (f : Tab -> Tab) : Task State unit :=
  Task.setState (fun st =>
    mkState (messages st) (inputValue st) (isUploading st) (isProcessing st) (f (activeTab st))
      (documents st) (temperature st) (model st) (darkMode st) (uploadProgress st)
      (processingStage st) (chunkSize st) (chunkOverlap st) (maxTokens st)).

Definition setDocuments (f : list Document.t -> list Document.t) : Task State unit :=
  Task.setState (fun st =>
    mkState (messages st) (inputValue st) (isUploading st) (isProcessing st) (activeTab st)
      (f (documents st)) (temperature st) (model st) (darkMode st) (uploadProgress st)
      (processingStage st) (chunkSize st) (chunkOverlap st) (maxTokens st)).

Definition setTemperature (f : number -> number) : Task State unit :=
  Task.setState (fun st =>
    mkState (messages st) (inputValue st) (isUploading st) (isProcessing st) (activeTab st)
      (documents st) (f (temperature st)) (model st) (darkMode st) (uploadProgress st)
      (processingStage st) (chunkSize st) (chunkOverlap st) (maxTokens st)).

Definition setModel (f : string -> string) : Task State unit :=
  Task.setState (fun st =>
    mkState (messages st) (inputValue st) (isUploading st) (isProcessing st) (activeTab st)
      (documents st) (temperature st) (f (model st)) (darkMode st) (uploadProgress st)
      (processingStage st) (chunkSize st) (chunkOverlap st) (maxTokens st)).

Definition setDarkMode (f : bool -> bool) : Task State unit :=
  Task.setState (fun st =>
    mkState (messages st) (inputValue st) (isUploading st) (isProcessing st) (activeTab st)
      (documents st) (temperature st) (model st) (f (darkMode st)) (uploadProgress st)
      (processingStage st) (chunkSize st) (chunkOverlap st) (maxTokens st)).

Definition setUploadProgress (f : Z -> Z) : Task State unit :=
  Task.setState (fun st =>
    mkState (messages st) (inputValue st) (isUploading st) (isProcessing st) (activeTab st)
      (documents st) (temperature st) (model st) (darkMode st) (f (uploadProgress st))
      (processingStage st) (chunkSize st) (chunkOverlap st) (maxTokens st)).

Definition setProcessingStage (f : string -> string) : Task State unit :=
  Task.setState (fun st =>
    mkState (messages st) (inputValue st) (isUploading st) (isProcessing st) (activeTab st)
      (documents st) (temperature st) (model st) (darkMode st) (uploadProgress st)
      (f (processingStage st)) (chunkSize st) (chunkOverlap st) (maxTokens st)).


(** *** Session config: load on start, save on change *)

Definition KEY_TEMPERATURE : string := "pdf-chatbot-temperature".
Definition KEY_MODEL : string := "pdf-chatbot-model".
Definition KEY_DARK_MODE : string := "pdf-chatbot-darkMode".

(** [0.1] *)
Definition DEFAULT_TEMPERATURE : number := parseFloat "0.1".

(** The lazy initialisers of [useState], and the [defaultValue]s of the
    uncontrolled inputs. *)
Definition initialState (store : gmap string string) : State :=
  mkState [] "" false false chat []
    (match store !! KEY_TEMPERATURE with
     | Some saved => if JsString.truthy saved then parseFloat saved else DEFAULT_TEMPERATURE
     | None => DEFAULT_TEMPERATURE
     end)
    (match store !! KEY_MODEL with
     | Some saved => if JsString.truthy saved then saved else "Flan-T5 Small"
     | None => "Flan-T5 Small"
     end)
    (match store !! KEY_DARK_MODE with
     | Some saved => String.eqb saved "true"
     | None => false
     end)
    0 "" "300" "50" "300".

Definition localStorage_setItem (key value : string) : Task State unit :=
  fun w =>
    Finished (Return tt)
      (mkWorld (comp w) (commits w) (authToken w) (<[key := value]> (localStorage w))
         (now w) (console w)).

Definition Boolean_toString (b : bool) : string := if b then "true" else "false".

(** The bodies of the three saving effects. *)
Definition saveTemperature : Task State unit :=
  st <- Task.getState ;; localStorage_setItem KEY_TEMPERATURE (Number_toString (temperature st)).
Definition saveModel : Task State unit :=
  st <- Task.getState ;; localStorage_setItem KEY_MODEL (model st).
Definition saveDarkMode : Task State unit :=
  st <- Task.getState ;; localStorage_setItem KEY_DARK_MODE (Boolean_toString (darkMode st)).

(** What React runs after a render: each saving effect whose dependency
    differs from the render before. *)
Definition runEffects (before : State) : Task State unit :=
  after <- Task.getState ;;
  (if Object_is (temperature before) (temperature after) then Task.ret tt
   else saveTemperature) ;;;
  (if String.eqb (model before) (model after) then Task.ret tt else saveModel) ;;;
  (if Bool.eqb (darkMode before) (darkMode after) then Task.ret tt else saveDarkMode).

(** The [onChange] handlers of the Settings panel, each followed by the
    effects of the render it causes. *)
Definition onTemperatureChange (value : string) : Task State unit :=
  before <- Task.getState ;;
  setTemperature (fun _ => parseFloat value) ;;;
  runEffects before.

Definition onModelChange (value : string) : Task State unit :=
  before <- Task.getState ;;
  setModel (fun _ => value) ;;;
  runEffects before.

Definition onDarkModeChange (checked : bool) : Task State unit :=
  before <- Task.getState ;;
  setDarkMode (fun _ => checked) ;;;
  runEffects before.

(** Typing into the uncontrolled inputs changes what they hold and calls no
    code of the component. *)
Definition typeChunkSize (value : string) : Task State unit :=
  Task.mutate (fun st =>
    mkState (messages st) (inputValue st) (isUploading st) (isProcessing st) (activeTab st)
      (documents st) (temperature st) (model st) (darkMode st) (uploadProgress st)
      (processingStage st) value (chunkOverlap st) (maxTokens st)).
Definition typeChunkOverlap (value : string) : Task State unit :=
  Task.mutate (fun st =>
    mkState (messages st) (inputValue st) (isUploading st) (isProcessing st) (activeTab st)
      (documents st) (temperature st) (model st) (darkMode st) (uploadProgress st)
      (processingStage st) (chunkSize st) value (maxTokens st)).
Definition typeMaxTokens (value : string) : Task State unit :=
  Task.mutate (fun st =>
    mkState (messages st) (inputValue st) (isUploading st) (isProcessing st) (activeTab st)
      (documents st) (temperature st) (model st) (darkMode st) (uploadProgress st)
      (processingStage st) (chunkSize st) (chunkOverlap st) value).

(** A click on a tab of the sidebar.  The Settings panel is rendered only
    while its tab is active, so leaving it drops what its uncontrolled
    inputs held: they show their [defaultValue] when rendered again. *)
Definition selectTab (tab : Tab) : Task State unit :=
  before <- Task.getState ;;
  setActiveTab (fun _ => tab) ;;;
  match activeTab before, tab with
  | settings, settings => Task.ret tt
  | settings, _ => typeChunkSize "300" ;;; typeChunkOverlap "50" ;;; typeMaxTokens "300"
  | _, _ => Task.ret tt
  end.

(** *** Documents and messages *)

Definition appendMessage (m : MessageItem.t) : Task State unit :=
  setMessages (fun prev => prev ++ [m]).

Definition toDocument (doc : JsValue) : Task State Document.t :=
  id <- Task.getProp doc "id" ;;
  name <- Task.getProp doc "name" ;;
  size <- Task.getProp doc "size" ;;
  uploadDate <- Task.getProp doc "uploadDate" ;;
  status <- Task.getProp doc "status" ;;
  Task.ret (Document.mk id name size (DateFrom uploadDate) status).

Fixpoint mapDocuments (items : list JsValue) : Task State (list Document.t) :=
  match items with
  | [] => Task.ret []
  | doc :: rest =>
      d <- toDocument doc ;;
      ds <- mapDocuments rest ;;
      Task.ret (d :: ds)
  end.

Definition loadDocuments : Task State unit :=
  Task.tryCatch
    (docsData <- Api.listDocuments ;;
     if Js.truthy docsData then
       listed <- Task.getProp docsData "documents" ;;
       if Js.truthy listed then
         match listed with
         | JArr items =>
             docs <- mapDocuments items ;;
             setDocuments (fun _ => docs)
         | _ => Task.throw (TypeError (faultMessage (NotAFunction "docsData.documents.map")))
         end
       else Task.ret tt
     else Task.ret tt)
    (fun error =>
       Task.console_error "Error loading documents:" ;;;
       t <- Task.Date_now ;;
       appendMessage
         (MessageItem.mk (JsString.ofZ t) assistant
            (JStr "Error loading documents. Please refresh the page or check your connection.")
            (DateAt t))).

Definition mount : Task State unit :=
  w <- Task.getWorld ;;
  Task.setState (fun _ => initialState (localStorage w)) ;;;
  saveTemperature ;;;
  saveModel ;;;
  saveDarkMode ;;;
  loadDocuments.

(** The [try] block of [sendMessageToBackend]; [render] is the state the
    handler closed over. *)
Definition sendMessageToBackend_try (render : State) : Task State unit :=
  data <- Api.sendMessage (inputValue render) (temperature render) ;;
  r <- Task.getProp data "response" ;;
  t' <- Task.Date_now ;;
  appendMessage
    (MessageItem.mk (JsString.ofZ (t' + 1)) assistant
       (Js.or r (JStr "I couldn't process that request. Please try again."))
       (DateAt t')).

Definition sendMessageToBackend : Task State unit :=
  render <- Task.getState ;;
  if negb (JsString.truthy (JsString.trim (inputValue render))) || isProcessing render
  then Task.ret tt
  else
    t <- Task.Date_now ;;
    appendMessage (MessageItem.mk (JsString.ofZ t) user (JStr (inputValue render)) (DateAt t)) ;;;
    setInputValue (fun _ => "") ;;;
    setIsProcessing (fun _ => true) ;;;
    setProcessingStage (fun _ => "Processing your question...") ;;;
    Task.tryFinally
      (Task.tryCatch
         (sendMessageToBackend_try render)
         (fun error =>
            Task.console_error "Error:" ;;;
            t' <- Task.Date_now ;;
            appendMessage
              (MessageItem.mk (JsString.ofZ (t' + 1)) assistant
                 (Js.or (JStr (message error))
                    (JStr "Error connecting to backend. Please try again."))
                 (DateAt t'))))
      (setIsProcessing (fun _ => false) ;;;
       setProcessingStage (fun _ => "")).

Definition MAX_UPLOAD_SIZE : Z := 10 * 1024 * 1024.

(** The text after the file name in the message of a successful upload. *)
Definition UPLOADED : string :=
  " uploaded and processed successfully! You can now ask questions about the document.".

(** [doc.id === newDocument.id ? {...doc, status} : doc] over the collection *)
Definition markStatus (id : string) (st : JsValue) (docs : list Document.t) : list Document.t :=
  map (fun doc => if Js.strictEqStr (Document.id doc) id then Document.withStatus st doc else doc)
    docs.

(** [result.status.includes("Error")], of a string or of an array. *)
Definition includesError (v : JsValue) : Task State bool :=
  match v with
  | JStr s => Task.ret (JsString.includes s "Error")
  | JArr items => Task.ret (existsb (fun x => Js.strictEqStr x "Error") items)
  | _ => Task.throw (TypeError (faultMessage (NotAFunction "result.status.includes")))
  end.

(** The [try] block of [handleFileUpload]. *)
Definition handleFileUpload_try (file : File) : Task State unit :=
  result <- Api.uploadFile file ;;
  t0 <- Task.Date_now ;;
  let newId := JsString.ofZ t0 in
  setDocuments
    (fun prev =>
       prev ++ [Document.mk (JStr newId) (JStr (fileName file)) (JNum (fileSize file))
                  (DateAt t0) Document.processing]) ;;;
  setProcessingStage (fun _ => "Extracting text from PDF...") ;;;
  Task.sleep 1000 ;;;
  setProcessingStage (fun _ => "Creating embeddings...") ;;;
  Task.sleep 1500 ;;;
  setProcessingStage (fun _ => "Building vector store...") ;;;
  Task.sleep 1000 ;;;
  setUploadProgress (fun _ => 100) ;;;
  setIsUploading (fun _ => false) ;;;
  setProcessingStage (fun _ => "") ;;;
  setDocuments (markStatus newId Document.completed) ;;;
  error <- Task.getProp result "error" ;;
  responseMessage <-
    (if Js.truthy error then
       t <- Task.Date_now ;;
       setDocuments (markStatus newId Document.failed) ;;;
       Task.ret (MessageItem.mk (JsString.ofZ t) assistant error (DateAt t))
     else
       status <- Task.getProp result "status" ;;
       isError <- (if Js.truthy status then includesError status else Task.ret false) ;;
       if isError then
         t <- Task.Date_now ;;
         setDocuments (markStatus newId Document.failed) ;;;
         Task.ret (MessageItem.mk (JsString.ofZ t) assistant status (DateAt t))
       else
         t <- Task.Date_now ;;
         filename <- Task.getProp result "filename" ;;
         Task.ret
           (MessageItem.mk (JsString.ofZ t) assistant
              (JStr ("File " +:+ Js.toString filename +:+ UPLOADED))
              (DateAt t))) ;;
  appendMessage responseMessage ;;;
  loadDocuments.

Definition handleFileUpload (files : option (list File)) : Task State unit :=
  match files with
  | None | Some [] => Task.ret tt
  | Some (file :: _) =>
      if negb (JsString.endsWith (JsString.toLowerCase (fileName file)) ".pdf") then
        t <- Task.Date_now ;;
        appendMessage
          (MessageItem.mk (JsString.ofZ t) assistant (JStr "Please upload a PDF file.") (DateAt t))
      else if MAX_UPLOAD_SIZE <? fileSize file then
        t <- Task.Date_now ;;
        appendMessage
          (MessageItem.mk (JsString.ofZ t) assistant
             (JStr "File size exceeds 10MB limit. Please upload a smaller file.") (DateAt t))
      else
        setIsUploading (fun _ => true) ;;;
        setUploadProgress (fun _ => 0) ;;;
        setProcessingStage (fun _ => "Uploading document...") ;;;
        Task.tryCatch
          (handleFileUpload_try file)
          (fun error =>
             setIsUploading (fun _ => false) ;;;
             setProcessingStage (fun _ => "") ;;;
             t <- Task.Date_now ;;
             appendMessage
               (MessageItem.mk (JsString.ofZ t) assistant
                  (Js.or (JStr (message error)) (JStr "Error uploading file. Please try again."))
                  (DateAt t)))
  end.

Definition handleDeleteDocument (id : string) : Task State unit :=
  Task.tryCatch
    (Api.deleteDocument id ;;;
     setDocuments (List.filter (fun doc => negb (Js.strictEqStr (Document.id doc) id))) ;;;
     t <- Task.Date_now ;;
     appendMessage
       (MessageItem.mk (JsString.ofZ t) assistant (JStr "Document deleted successfully.")
          (DateAt t)))
    (fun error =>
       t <- Task.Date_now ;;
       appendMessage
         (MessageItem.mk (JsString.ofZ t) assistant
            (Js.or (JStr (message error)) (JStr "Error deleting document. Please try again."))
            (DateAt t))).

(** *** What the collection showed of one document *)




(** *** The three buttons that open the file picker *)

Inductive UploadButton : Type := SidebarUpload | DocumentsUpload | FirstDocumentUpload.

Definition rendered (b : UploadButton) (st : State) : bool :=
  match b with
  | SidebarUpload => true
  | DocumentsUpload => match activeTab st with documents_tab => true | _ => false end
  | FirstDocumentUpload =>
      match activeTab st, documents st with documents_tab, [] => true | _, _ => false end
  end.

(** The [disabled] attribute; only the sidebar button carries one. *)
Definition disabled (b : UploadButton) (st : State) : bool :=
  match b with
  | SidebarUpload => isUploading st
  | DocumentsUpload | FirstDocumentUpload => false
  end.

(** A click on an upload button and the choice of files in the picker it
    opens: [triggerFileInput], then the [onChange] of the hidden input. *)
Definition pickFiles (b : UploadButton) (files : option (list File)) : Task State unit :=
  st <- Task.getState ;;
  if rendered b st && negb (disabled b st) then handleFileUpload files else Task.ret tt.

End Component.
End Dashboard.

(** ** The Chat component (unnamed/part_000) *)

Module Chat.

Record Message : Type := mkMessage { role : Role; content : JsValue }.

Record State : Type := mkState {
  messages : list Message;
  inputValue : string;
  isUploading : bool;
  isProcessing : bool;
}.

Section Component.
Context `{Platform}.

Definition setMessages (f : list Message -> list Message) : Task State unit :=
  Task.setState (fun st =>
    mkState (f (messages st)) (inputValue st) (isUploading st) (isProcessing st)).
Definition setInputValue (f : string -> string) : Task State unit :=
  Task.setState (fun st =>
    mkState (messages st) (f (inputValue st)) (isUploading st) (isProcessing st)).
Definition setIsUploading (f : bool -> bool) : Task State unit :=
  Task.setState (fun st =>
    mkState (messages st) (inputValue st) (f (isUploading st)) (isProcessing st)).
Definition setIsProcessing (f : bool -> bool) : Task State unit :=
  Task.setState (fun st =>
    mkState (messages st) (inputValue st) (isUploading st) (f (isProcessing st))).

Definition initialState : State := mkState [] "" false false.

Definition appendMessage (m : Message) : Task State unit :=
  setMessages (fun prev => prev ++ [m]).

Definition sendMessageToBackend_try (render : State) : Task State unit :=
  data <- Api.sendMessage (inputValue render) (parseFloat "0.1") ;;
  r <- Task.getProp data "response" ;;
  appendMessage
    (mkMessage assistant
       (Js.or r (JStr "I couldn't process that request. Please try again."))).

Definition sendMessageToBackend : Task State unit :=
  render <- Task.getState ;;
  if negb (JsString.truthy (JsString.trim (inputValue render))) || isProcessing render
  then Task.ret tt
  else
    appendMessage (mkMessage user (JStr (inputValue render))) ;;;
    setInputValue (fun _ => "") ;;;
    setIsProcessing (fun _ => true) ;;;
    Task.tryFinally
      (Task.tryCatch
         (sendMessageToBackend_try render)
         (fun error =>
            Task.console_error "Error:" ;;;
            appendMessage
              (mkMessage assistant (JStr "Error connecting to backend. Please try again."))))
      (setIsProcessing (fun _ => false)).

Definition MAX_UPLOAD_SIZE : Z := 10 * 1024 * 1024.

Definition includesError (v : JsValue) : Task State bool :=
  match v with
  | JStr s => Task.ret (JsString.includes s "Error")
  | JArr items => Task.ret (existsb (fun x => Js.strictEqStr x "Error") items)
  | _ => Task.throw (TypeError (faultMessage (NotAFunction "result.status.includes")))
  end.

Definition handleFileUpload_try (file : File) : Task State unit :=
  result <- Api.uploadFile file ;;
  setIsUploading (fun _ => false) ;;;
  error <- Task.getProp result "error" ;;
  if Js.truthy error then appendMessage (mkMessage assistant error)
  else
    status <- Task.getProp result "status" ;;
    isError <- (if Js.truthy status then includesError status else Task.ret false) ;;
    if isError then appendMessage (mkMessage assistant status)
    else
      filename <- Task.getProp result "filename" ;;
      appendMessage
        (mkMessage assistant
           (JStr ("File " +:+ Js.toString filename +:+ Dashboard.UPLOADED))).

Definition handleFileUpload (files : option (list File)) : Task State unit :=
  match files with
  | None | Some [] => Task.ret tt
  | Some (file :: _) =>
      if negb (JsString.endsWith (JsString.toLowerCase (fileName file)) ".pdf") then
        appendMessage (mkMessage assistant (JStr "Please upload a PDF file."))
      else if MAX_UPLOAD_SIZE <? fileSize file then
        appendMessage
          (mkMessage assistant (JStr "File size exceeds 10MB limit. Please upload a smaller file."))
      else
        setIsUploading (fun _ => true) ;;;
        Task.tryCatch
          (handleFileUpload_try file)
          (fun error =>
             setIsUploading (fun _ => false) ;;;
             appendMessage (mkMessage assistant (JStr "Error uploading file. Please try again.")))
  end.

(** The one upload button, disabled while an upload is in flight. *)
Definition pickFiles (files : option (list File)) : Task State unit :=
  st <- Task.getState ;;
  if negb (isUploading st) then handleFileUpload files else Task.ret tt.

End Component.
End Chat.

(** ** The LoginPage component (components/LoginPage.tsx) *)

Module LoginPage.

(** The state cells of the component, and the route the router shows. *)
Record State : Type := mkState {
  username : string;
  password : string;
  error : JsValue;
  isLoading : bool;
  location : string;
}.

Section Component.
Context `{Platform}.

Definition setUsername (f : string -> string) : Task State unit :=
  Task.setState (fun st =>
    mkState (f (username st)) (password st) (error st) (isLoading st) (location st)).
Definition setPassword (f : string -> string) : Task State unit :=
  Task.setState (fun st =>
    mkState (username st) (f (password st)) (error st) (isLoading st) (location st)).
Definition setError (f : JsValue -> JsValue) : Task State unit :=
  Task.setState (fun st =>
    mkState (username st) (password st) (f (error st)) (isLoading st) (location st)).
Definition setIsLoading (f : bool -> bool) : Task State unit :=
  Task.setState (fun st =>
    mkState (username st) (password st) (error st) (f (isLoading st)) (location st)).

(** [navigate(to)] of the router. *)
Definition navigate (to : string) : Task State unit :=
  Task.mutate (fun st => mkState (username st) (password st) (error st) (isLoading st) to).

Definition initialState : State := mkState "" "" (JStr "") false "/login".

(** [result.message.includes(needle)]: of a string, of an array, a fault on
    anything else. *)
Definition includes (v : JsValue) (needle : string) : Task State bool :=
  match v with
  | JUndefined | JNull => Task.throw (TypeError (faultMessage (ReadOfNullish v "includes")))
  | JStr s => Task.ret (JsString.includes s needle)
  | JArr items => Task.ret (existsb (fun x => Js.strictEqStr x needle) items)
  | _ => Task.throw (TypeError (faultMessage (NotAFunction "result.message.includes")))
  end.

Definition UNABLE_TO_CONNECT : string :=
  "Unable to connect to the server. Please check your network connection and try again.".
Definition INVALID_CREDENTIALS : string :=
  "Invalid username or password. Please check your credentials and try again.".
Definition UNEXPECTED : string := "An unexpected error occurred. Please try again.".

(** The [try] block of [handleLogin]; [render] is the state the handler closed
    over. *)
Definition handleLogin_try (render : State) : Task State unit :=
  result <- Api.login (username render) (password render) ;;
  success <- Task.getProp result "success" ;;
  if Js.truthy success then navigate "/dashboard"
  else
    shown <- Task.getProp result "message" ;;
    unreachable <- includes shown "Connection failed" ;;
    if unreachable then setError (fun _ => JStr UNABLE_TO_CONNECT)
    else
      refused <- includes shown "Invalid username or password" ;;
      if refused then setError (fun _ => JStr INVALID_CREDENTIALS)
      else setError (fun _ => Js.or shown (JStr "Login failed. Please try again.")).

Definition handleLogin : Task State unit :=
  render <- Task.getState ;;
  setIsLoading (fun _ => true) ;;;
  setError (fun _ => JStr "") ;;;
  Task.tryFinally
    (Task.tryCatch
       (handleLogin_try render)
       (fun err => setError (fun _ => JStr UNEXPECTED)))
    (setIsLoading (fun _ => false)).

End Component.
End LoginPage.

(** ** Running tasks *)

Module Loop.
Section EventLoop.
Context `{Platform} {S : Type}.

Definition advance (ms : Z) (w : World S) : World S :=
  mkWorld (comp w) (commits w) (authToken w) (localStorage w) (now w + ms) (console w).

(** Runs a task to its end: the fetches are answered in order from [net],
    the timers fire when due.  [None] when [net] is exhausted. *)
Fixpoint run {A} (s : Step S A) (net : list FetchOutcome) : option (Outcome A * World S) :=
  match s with
  | Finished r w => Some (r, w)
  | AwaitFetch _ w k =>
      match net with
      | o :: net' => run (k o w) net'
      | [] => None
      end
  | AwaitTimer ms w k => run (k (advance ms w)) net
  end.

(** What a run leaves to look at: how it ended, the final state of the
    component, and the log of its commits. *)
Definition outcome {A} (s : Step S A) (net : list FetchOutcome) : option (Outcome A) :=
  fst <$> run s net.
Definition state {A} (s : Step S A) (net : list FetchOutcome) : option S :=
  (fun p => comp (snd p)) <$> run s net.
Definition store {A} (s : Step S A) (net : list FetchOutcome) : option (gmap string string) :=
  (fun p => localStorage (snd p)) <$> run s net.

(** The requests a task issues on the way, oldest first. *)
Fixpoint requests {A} (s : Step S A) (net : list FetchOutcome) : list Request :=
  match s with
  | Finished _ _ => []
  | AwaitFetch req w k =>
      req :: match net with
             | o :: net' => requests (k o w) net'
             | [] => []
             end
  | AwaitTimer ms w k => requests (k (advance ms w)) net
  end.

(** A task parked at an [await]. *)
Inductive Suspended : Type :=
| OnFetch (req : Request) (k : FetchOutcome -> World S -> Step S unit)
| OnTimer (ms : Z) (k : World S -> Step S unit).

Record t : Type := mk {
  world : World S;
  pending : list Suspended;
  unhandled : list JsError;              (* rejections nobody caught *)
}.

Definition settle (s : Step S unit) (others : list Suspended) (errors : list JsError) : t :=
  match s with
  | Finished (Return _) w => mk w others errors
  | Finished (Throw e) w => mk w others (errors ++ [e])
  | AwaitFetch req w k => mk w (others ++ [OnFetch req k]) errors
  | AwaitTimer ms w k => mk w (others ++ [OnTimer ms k]) errors
  end.

Definition start (w : World S) : t := mk w [] [].

(** An event handler is called: it runs until it ends or first awaits. *)
Definition dispatch (handler : Task S unit) (l : t) : t :=
  settle (handler (world l)) (pending l) (unhandled l).

(** The response to the [i]-th parked fetch arrives. *)
Definition deliver (i : nat) (o : FetchOutcome) (l : t) : t :=
  match pending l !! i with
  | Some (OnFetch _ k) => settle (k o (world l)) (delete i (pending l)) (unhandled l)
  | _ => l
  end.

(** The [i]-th parked timer fires. *)
Definition fire (i : nat) (l : t) : t :=
  match pending l !! i with
  | Some (OnTimer ms k) => settle (k (world l)) (delete i (pending l)) (unhandled l)
  | _ => l
  end.

(** Time passes. *)
Definition elapse (ms : Z) (l : t) : t :=
  mk (advance ms (world l)) (pending l) (unhandled l).

(** The requests awaiting their response. *)
Definition inFlight (l : t) : list Request :=
  omap (fun p => match p with OnFetch req _ => Some req | OnTimer _ _ => None end) (pending l).

End EventLoop.
End Loop.

(** ** A reference platform

    Numbers with at most one fractional digit, which are the values the
    temperature slider (step 0.1) produces; any other text parses to [NaN].
    Faults are worded as V8 words them. *)

Module Reference.

Inductive num : Type := NaN | Tenths (z : Z).

Definition digit (c : ascii) : option Z :=
  let n := JsString.code c in
  if (48 <=? n) && (n <=? 57) then Some (n - 48) else None.

(** The value of a run of digits, [None] if another character occurs. *)
Fixpoint digits (acc : Z) (s : string) : option Z :=
  match s with
  | EmptyString => Some acc
  | String c s' =>
      match digit c with
      | Some d => digits (10 * acc + d) s'
      | None => None
      end
  end.

Fixpoint splitAtDot (s : string) : string * option string :=
  match s with
  | EmptyString => (EmptyString, None)
  | String c s' =>
      if Ascii.eqb c "." then (EmptyString, Some s')
      else let '(a, b) := splitAtDot s' in (String c a, b)
  end.

Definition parse (s : string) : num :=
  match splitAtDot (JsString.trimStart s) with
  | (EmptyString, _) => NaN
  | (whole, None) =>
      match digits 0 whole with Some n => Tenths (10 * n) | None => NaN end
  | (whole, Some (String d EmptyString)) =>
      match digits 0 whole, digit d with
      | Some n, Some k => Tenths (10 * n + k)
      | _, _ => NaN
      end
  | (_, Some _) => NaN
  end.

Definition print (x : num) : string :=
  match x with
  | NaN => "NaN"
  | Tenths z =>
      let a := Z.abs z in
      (if z <? 0 then "-" else "")
      +:+ JsString.ofZ (a / 10)
      +:+ (if a mod 10 =? 0 then "" else "." +:+ JsString.ofZ (a mod 10))
  end.

Definition same (x y : num) : bool :=
  match x, y with
  | NaN, NaN => true
  | Tenths a, Tenths b => a =? b
  | _, _ => false
  end.

Definition same_refl (x : num) : same x x = true :=
  match x with
  | NaN => eq_refl
  | Tenths z => Z.eqb_refl z
  end.

Definition alphabet : string :=
  "ABCDEFGHIJKLMNOPQRSTUVWXYZabcdefghijklmnopqrstuvwxyz0123456789+/".

Definition sextet (n : Z) : ascii :=
  match String.get (Z.to_nat (n mod 64)) alphabet with
  | Some c => c
  | None => "="%char
  end.

Fixpoint base64 (bytes : list Z) : string :=
  match bytes with
  | [] => ""
  | [a] =>
      String (sextet (a / 4)) (String (sextet (a mod 4 * 16)) "==")
  | [a; b] =>
      String (sextet (a / 4))
        (String (sextet (a mod 4 * 16 + b / 16)) (String (sextet (b mod 16 * 4)) "="))
  | a :: b :: c :: rest =>
      String (sextet (a / 4))
        (String (sextet (a mod 4 * 16 + b / 16))
           (String (sextet (b mod 16 * 4 + c / 64)) (String (sextet c) (base64 rest))))
  end.

Definition codes (s : string) : list Z := map JsString.code (list_ascii_of_string s).

Definition wording (f : Fault) : string :=
  match f with
  | ReadOfNullish base prop =>
      "Cannot read properties of " +:+ Js.toString base +:+ " (reading '" +:+ prop +:+ "')"
  | NotAFunction callee => callee +:+ " is not a function"
  end.

#[export] Instance platform : Platform := {|
  number := num;
  parseFloat := parse;
  Number_toString := print;
  Object_is := same;
  Object_is_refl := same_refl;
  btoa := fun s => Return (base64 (codes s));
  faultMessage := wording;
|}.

End Reference.

(** ** Vocabulary of the statements *)

(** A name that ends in the accepted extension, in whatever case. *)
Definition hasPdfExtension (name : string) : Prop :=
  exists stem ext, name = stem +:+ ext /\ JsString.toLowerCase ext = ".pdf".

(** What the client-side validation gate is to tell apart. *)
Definition isInvalid (file : File) : Prop :=
  ~ hasPdfExtension (fileName file) \/ 10 * 1024 * 1024 < fileSize file.

Definition isValid (file : File) : Prop :=
  hasPdfExtension (fileName file) /\ fileSize file <= 10 * 1024 * 1024.

(** A parsed upload result the handlers fault on when they read it: [null],
    or, with no truthy [error], a truthy [status] that has no [includes]. *)
Definition hasIncludes (v : JsValue) : bool :=
  match v with
  | JStr _ | JArr _ => true
  | _ => false
  end.


(** The entries of a collection that carry the id [id]. *)
Definition withId (id : string) (docs : list Document.t) : list Document.t :=
  List.filter (fun doc => Js.strictEqStr (Document.id doc) id) docs.


(** What the [catch] of [sendMessage] and of [uploadFile] makes of the error
    [e]: its text by class and message, [fallback] when it has none. *)
Definition caughtText (e : JsError) (fallback : string) : string :=
  if isTypeError e && JsString.includes (message e) "fetch" then Api.CONNECTION_FAILED
  else if JsString.truthy (message e) then message e
  else fallback.

(** The token a login is granted: the answer is ok and parses to a body with
    a truthy [success], and the credentials encode. *)
Definition granted `{Platform} (username password : string) (o : FetchOutcome) : option string :=
  match Api.accepted o, btoa (username +:+ ":" +:+ password) with
  | Some v, Return token => if Js.truthy (Js.prop v "success") then Some token else None
  | _, _ => None
  end.


(** The message of a refresh that failed at the time [t]. *)
Definition refreshFailed (t : Z) : MessageItem.t :=
  MessageItem.mk (JsString.ofZ t) assistant
    (JStr "Error loading documents. Please refresh the page or check your connection.")
    (DateAt t).




(** *** Sessions: handlers interleaved by the event loop *)

Section Sessions.
Context `{Platform} {S : Type}.

(** A task, resumed on the state [st], all of whose state changes keep the
    relation [R]: up to where it stands, and from whatever state each of its
    continuations is resumed on later. *)
Inductive respects (R : S -> S -> Prop) {A : Type} : S -> Step S A -> Prop :=
| respects_finished st r w : R st (comp w) -> respects R st (Finished r w)
| respects_fetch st req w k :
    R st (comp w) -> (forall o w2, respects R (comp w2) (k o w2)) ->
    respects R st (AwaitFetch req w k)
| respects_timer st ms w k :
    R st (comp w) -> (forall w2, respects R (comp w2) (k w2)) ->
    respects R st (AwaitTimer ms w k).

Definition respectful (R : S -> S -> Prop) {A : Type} (m : Task S A) : Prop :=
  forall w, respects R (comp w) (m w).

(** A task that stands with the flag lowered, or will have lowered it the
    next time it stands, however it is resumed. *)
Inductive discharges (flag : S -> bool) {A : Type} : Step S A -> Prop :=
| discharges_finished r w : flag (comp w) = false -> discharges flag (Finished r w)
| discharges_fetch_now req w k :
    flag (comp w) = false -> discharges flag (AwaitFetch req w k)
| discharges_fetch_later req w k :
    (forall o w2, discharges flag (k o w2)) -> discharges flag (AwaitFetch req w k)
| discharges_timer_now ms w k :
    flag (comp w) = false -> discharges flag (AwaitTimer ms w k)
| discharges_timer_later ms w k :
    (forall w2, discharges flag (k w2)) -> discharges flag (AwaitTimer ms w k).

(** The same of a parked task. *)
Definition parked (R : S -> S -> Prop) (p : Loop.Suspended) : Prop :=
  match p with
  | Loop.OnFetch _ k => forall o w2, respects R (comp w2) (k o w2)
  | Loop.OnTimer _ k => forall w2, respects R (comp w2) (k w2)
  end.

Definition owes (flag : S -> bool) (p : Loop.Suspended) : Prop :=
  match p with
  | Loop.OnFetch _ k => forall o w2, discharges flag (k o w2)
  | Loop.OnTimer _ k => forall w2, discharges flag (k w2)
  end.

(** A task whose promise resolves, however it is resumed: it never ends in
    an error thrown. *)
Inductive resolves {A : Type} : Step S A -> Prop :=
| resolves_finished a w : resolves (Finished (Return a) w)
| resolves_fetch req w k : (forall o w2, resolves (k o w2)) -> resolves (AwaitFetch req w k)
| resolves_timer ms w k : (forall w2, resolves (k w2)) -> resolves (AwaitTimer ms w k).

Definition resolving {A : Type} (m : Task S A) : Prop := forall w, resolves (m w).

Definition waits (p : Loop.Suspended) : Prop :=
  match p with
  | Loop.OnFetch _ k => forall o w2, resolves (k o w2)
  | Loop.OnTimer _ k => forall w2, resolves (k w2)
  end.

(** The sessions a set of event handlers gives rise to: handlers are called,
    responses arrive and timers fire in any order, time passes. *)
Inductive reaches (action : Task S unit -> Prop) (l : Loop.t) : Loop.t -> Prop :=
| reaches_here : reaches action l l
| reaches_dispatch l' h :
    reaches action l l' -> action h -> reaches action l (Loop.dispatch h l')
| reaches_deliver l' i o : reaches action l l' -> reaches action l (Loop.deliver i o l')
| reaches_fire l' i : reaches action l l' -> reaches action l (Loop.fire i l')
| reaches_elapse l' ms : reaches action l l' -> reaches action l (Loop.elapse ms l').

End Sessions.

(** The timeline of [st'] is that of [st] with messages appended. *)
Definition extends {S M : Type} (timeline : S -> list M) (st st' : S) : Prop :=
  exists new, timeline st' = timeline st ++ new.

(** The flag is not raised from [st] to [st']. *)
Definition notRaised {S : Type} (flag : S -> bool) (st st' : S) : Prop :=
  flag st' = true -> flag st = true.

(** Both relations at once. *)
Definition both {S : Type} (R1 R2 : S -> S -> Prop) (st st' : S) : Prop :=
  R1 st st' /\ R2 st st'.

(** Where a task called on [w] may stand with respect to a flag: it has
    left the flag as it was or lowered it, or else it is parked and will lower
    it; what it parks never raises the flag. *)
Definition standing `{Platform} {S : Type} (flag : S -> bool) (w : World S)
    (s : Step S unit) : Prop :=
  match s with
  | Finished _ w' => notRaised flag (comp w) (comp w')
  | AwaitFetch req w' k =>
      parked (notRaised flag) (Loop.OnFetch req k)
      /\ (notRaised flag (comp w) (comp w') \/ owes flag (Loop.OnFetch req k))
  | AwaitTimer ms w' k =>
      parked (notRaised flag) (Loop.OnTimer ms k)
      /\ (notRaised flag (comp w) (comp w') \/ owes flag (Loop.OnTimer ms k))
  end.

Definition answerable `{Platform} {S : Type} (flag : S -> bool) (h : Task S unit) : Prop :=
  forall w, standing flag w (h w).

(** A session in which every parked task leaves the flag as it is or lowers
    it, and in which some parked task will lower the flag if it is raised. *)
Definition settled `{Platform} {S : Type} (flag : S -> bool) (l : Loop.t) : Prop :=
  Forall (parked (notRaised flag)) (Loop.pending l)
  /\ (flag (comp (Loop.world l)) = true -> Exists (owes flag) (Loop.pending l)).

(** Messages are appended at most, and neither flag is raised. *)
Definition calm {S M : Type} (timeline : S -> list M) (answering uploading : S -> bool) :
    S -> S -> Prop :=
  both (extends timeline) (both (notRaised answering) (notRaised uploading)).

Definition dashboardCalm `{Platform} : Dashboard.State -> Dashboard.State -> Prop :=
  calm Dashboard.messages Dashboard.isProcessing Dashboard.isUploading.

Definition chatCalm : Chat.State -> Chat.State -> Prop :=
  calm Chat.messages Chat.isProcessing Chat.isUploading.

(** The event handlers of the Dashboard, and the effect of its first render. *)
Inductive DashboardAction `{Platform} : Task Dashboard.State unit -> Prop :=
| dashboard_types value : DashboardAction (Dashboard.setInputValue (fun _ => value))
| dashboard_sends : DashboardAction Dashboard.sendMessageToBackend
| dashboard_picks button files : DashboardAction (Dashboard.pickFiles button files)
| dashboard_deletes id : DashboardAction (Dashboard.handleDeleteDocument id)
| dashboard_refreshes : DashboardAction Dashboard.loadDocuments
| dashboard_selects tab : DashboardAction (Dashboard.selectTab tab)
| dashboard_sets_temperature value : DashboardAction (Dashboard.onTemperatureChange value)
| dashboard_sets_model value : DashboardAction (Dashboard.onModelChange value)
| dashboard_sets_theme checked : DashboardAction (Dashboard.onDarkModeChange checked)
| dashboard_types_chunk_size value : DashboardAction (Dashboard.typeChunkSize value)
| dashboard_types_chunk_overlap value : DashboardAction (Dashboard.typeChunkOverlap value)
| dashboard_types_max_tokens value : DashboardAction (Dashboard.typeMaxTokens value).

(** The event handlers of the Chat. *)
Inductive ChatAction `{Platform} : Task Chat.State unit -> Prop :=
| chat_types value : ChatAction (Chat.setInputValue (fun _ => value))
| chat_sends : ChatAction Chat.sendMessageToBackend
| chat_picks files : ChatAction (Chat.pickFiles files).

(** ** Sample sessions on the reference platform *)

Module Sample.
Import Reference.

Definition dashboard (input : string) (answering uploading : bool) (tab : Dashboard.Tab)
    (docs : list Document.t) : World Dashboard.State :=
  mkWorld
    (Dashboard.mkState [] input uploading answering tab docs (Tenths 1) "Flan-T5 Small" false 0 ""
       "300" "50" "300")
    [] None ∅ 1700000000000 [].

Definition chat (input : string) (answering uploading : bool) : World Chat.State :=
  mkWorld (Chat.mkState [] input uploading answering) [] None ∅ 1700000000000 [].

Definition gateway : World unit := mkWorld tt [] (Some "YWRtaW46c2VjcmV0") ∅ 1700000000000 [].

Definition MiB : Z := 1024 * 1024.
Definition report_pdf : File := mkFile "report.pdf" (5 * MiB).
Definition notes_pdf : File := mkFile "Notes.PDF" (2 * MiB).
Definition image_png : File := mkFile "image.png" (1 * MiB).
Definition huge_pdf : File := mkFile "huge.pdf" (11 * MiB).

Definition respond (code : Z) (reason : string) (body : JsValue) : FetchOutcome :=
  Responded (mkResponse code reason (Return body)).

Definition unauthorized : FetchOutcome :=
  respond 401 "Unauthorized" (JObj [("detail", JStr "Not authenticated")]).

Definition offline : FetchOutcome := Rejected (TypeError "Failed to fetch").


Definition stored (id name : string) : Document.t :=
  Document.mk (JStr id) (JStr name) (JNum 1024) (DateAt 1690000000000) Document.completed.

Definition loginPage (username password : string) : World LoginPage.State :=
  mkWorld (LoginPage.mkState username password (JStr "") false "/login") [] None ∅
    1700000000000 [].

(** A 2xx answer to an upload that went well. *)
Definition processed : FetchOutcome :=
  respond 200 "OK"
    (JObj [("filename", JStr "report.pdf"); ("status", JStr "PDF processed successfully")]).

(** A 2xx answer to a login that reports no success and says nothing more. *)
Definition declined : FetchOutcome := respond 200 "OK" (JObj [("success", JBool false)]).

(** A session of the Dashboard in which a question is asked while an upload
    is in flight and answered before the upload is; the upload then runs
    through its three timers, and the refresh it starts fails. *)
Definition asked : Loop.t :=
  Loop.dispatch Dashboard.sendMessageToBackend
    (Loop.dispatch (Dashboard.pickFiles Dashboard.SidebarUpload (Some [report_pdf]))
       (Loop.start (dashboard "What is the answer?" false false Dashboard.chat []))).

Definition interleaved : Loop.t :=
  Loop.deliver 0 offline
    (Loop.fire 0
       (Loop.fire 0
          (Loop.fire 0
             (Loop.deliver 0 processed
                (Loop.deliver 1 (respond 200 "OK" (JObj [("response", JStr "On page 4.")]))
                   asked))))).

End Sample.

(** * Verification *)

(** Case analysis on the next test of a task under evaluation. *)
Ltac branch :=
  match goal with
  | |- context [if negb ?c then _ else _] => destruct c eqn:?
  | |- context [if ?c then _ else _] => destruct c eqn:?
  | |- context [match ?c with Return _ => _ | Throw _ => _ end] => destruct c eqn:?
  end; cbn; try discriminate; try congruence.

Ltac branches := cbn; repeat branch.

(** ** Strings *)

Lemma trimStart_blank (s : string) :
  JsString.blank s = true -> JsString.trimStart s = "".
Proof.
  induction s as [|c s IH]; cbn; [done|].
  intros [Hc Hs]%andb_prop. rewrite Hc. auto.
Qed.

Lemma trim_blank (s : string) : JsString.blank s = true -> JsString.trim s = "".
Proof.
  intros Hs. unfold JsString.trim. by rewrite (trimStart_blank s Hs).
Qed.

Lemma append_cons (x : ascii) (a b : string) : String x a +:+ b = String x (a +:+ b).
Proof. reflexivity. Qed.

Lemma append_assoc (a b c : string) : (a +:+ b) +:+ c = a +:+ (b +:+ c).
Proof. induction a as [|x a IH]; [done|]. by rewrite !append_cons, IH. Qed.

Lemma append_empty_r (a : string) : a +:+ "" = a.
Proof. induction a as [|x a IH]; [done|]. by rewrite append_cons, IH. Qed.

Lemma rev_app_append (s acc : string) : String.rev_app s acc = String.rev s +:+ acc.
Proof.
  unfold String.rev. revert acc.
  induction s as [|x s IH]; intros acc; cbn; [done|].
  rewrite (IH (String x acc)), (IH (String x "")), append_assoc. done.
Qed.

Lemma rev_cons (x : ascii) (s : string) :
  String.rev (String x s) = String.rev s +:+ String x "".
Proof. unfold String.rev at 1. cbn. apply rev_app_append. Qed.

Lemma rev_append (a b : string) : String.rev (a +:+ b) = String.rev b +:+ String.rev a.
Proof.
  induction a as [|x a IH].
  - by rewrite append_empty_r.
  - by rewrite append_cons, !rev_cons, IH, append_assoc.
Qed.

Lemma rev_involutive (s : string) : String.rev (String.rev s) = s.
Proof.
  induction s as [|x s IH]; [done|].
  by rewrite rev_cons, rev_append, IH.
Qed.

Lemma startsWith_spec (s p : string) :
  JsString.startsWith s p = true <-> exists rest, s = p +:+ rest.
Proof.
  revert s. induction p as [|a p IH]; intros s; cbn.
  - split; [intros _; exists s; reflexivity | done].
  - destruct s as [|b s].
    + split; [done | intros [rest Hrest]; by rewrite append_cons in Hrest].
    + destruct (Ascii.eqb_spec a b) as [<- | Hne].
      * rewrite IH. split; intros [rest Hrest]; exists rest.
        -- by rewrite append_cons, Hrest.
        -- rewrite append_cons in Hrest. congruence.
      * split; [done | intros [rest Hrest]; rewrite append_cons in Hrest; congruence].
Qed.

Lemma endsWith_spec (s suffix : string) :
  JsString.endsWith s suffix = true <-> exists stem, s = stem +:+ suffix.
Proof.
  unfold JsString.endsWith. rewrite startsWith_spec. split.
  - intros [rest Hrest]. exists (String.rev rest).
    rewrite <- (rev_involutive s), Hrest, rev_append, rev_involutive. done.
  - intros [stem ->]. exists (String.rev stem). apply rev_append.
Qed.

Lemma toLowerCase_append (a b : string) :
  JsString.toLowerCase (a +:+ b) = JsString.toLowerCase a +:+ JsString.toLowerCase b.
Proof.
  induction a as [|x a IH]; [done|].
  rewrite append_cons. cbn. by rewrite append_cons, IH.
Qed.

Lemma toLowerCase_split (s a b : string) :
  JsString.toLowerCase s = a +:+ b ->
  exists s1 s2, s = s1 +:+ s2 /\ JsString.toLowerCase s1 = a /\ JsString.toLowerCase s2 = b.
Proof.
  revert s. induction a as [|x a IH]; intros s.
  - intros Hs. exists "", s. by repeat split.
  - rewrite append_cons. destruct s as [|c s]; cbn; [done|].
    intros [= Hc Hs]. destruct (IH s Hs) as (s1 & s2 & -> & H1 & H2).
    exists (String c s1), s2. cbn. by rewrite Hc, H1.
Qed.

Lemma extension_test (name : string) :
  JsString.endsWith (JsString.toLowerCase name) ".pdf" = true <-> hasPdfExtension name.
Proof.
  rewrite endsWith_spec. split.
  - intros [stem Hstem]. destruct (toLowerCase_split _ _ _ Hstem) as (s1 & s2 & -> & _ & H2).
    by exists s1, s2.
  - intros (stem & ext & -> & Hext). exists (JsString.toLowerCase stem).
    by rewrite toLowerCase_append, Hext.
Qed.

Lemma extension_test_false (name : string) :
  JsString.endsWith (JsString.toLowerCase name) ".pdf" = false <-> ~ hasPdfExtension name.
Proof.
  rewrite <- extension_test. by destruct (JsString.endsWith _ _).
Qed.

(** ** The gateway: what each call ends in, for every outcome of its fetch *)

Section GatewayFacts.
Context `{Platform} {S : Type}.
Implicit Types (w : World S) (o : FetchOutcome).

Lemma sendMessage_run w msg temp o :
  exists r w',
    Loop.run (Api.sendMessage msg temp w) [o] = Some (Return (JObj [("response", r)]), w')
    /\ comp w' = comp w /\ commits w' = commits w /\ now w' = now w
    /\ match Api.accepted o with
       | Some v => if Js.nullish v then exists s, r = JStr s else r = Js.prop v "response"
       | None => exists s, r = JStr s
       end.
Proof.
  destruct o as [e | r];
    unfold Api.sendMessage, Api.accepted, Task.tryCatch, Task.bind, Api.getAuthToken,
      Task.getProp;
    branches; eauto 12.
Qed.

Lemma uploadFile_run w file o :
  exists r w',
    Loop.run (Api.uploadFile file w) [o] = Some (Return r, w')
    /\ comp w' = comp w /\ commits w' = commits w /\ now w' = now w
    /\ match Api.accepted o with
       | Some v => r = v
       | None => exists s, r = JObj [("error", JStr s)] /\ JsString.truthy s = true
       end.
Proof.
  destruct o as [e | r];
    unfold Api.uploadFile, Api.accepted, Task.tryCatch, Task.bind, Api.getAuthToken;
    branches; eauto 12.
Qed.

Lemma login_run w username password o :
  exists r w', Loop.run (Api.login username password w) [o] = Some (Return r, w').
Proof.
  destruct o as [e | r];
    unfold Api.login, Task.tryCatch, Task.bind, Task.getProp, Task.lift, Api.setAuthToken;
    branches; eauto.
Qed.

Lemma getStatus_run w o :
  exists r w',
    Loop.run (Api.getStatus w) [o] = Some (Return r, w')
    /\ match Api.accepted o with Some v => r = v | None => r = JNull end.
Proof.
  destruct o as [e | r];
    unfold Api.getStatus, Api.accepted, Task.tryCatch, Task.bind, Api.getAuthToken;
    branches; eauto.
Qed.

Lemma listDocuments_run w o :
  exists res w',
    Loop.run (Api.listDocuments w) [o] = Some (res, w')
    /\ comp w' = comp w /\ commits w' = commits w /\ now w' = now w
    /\ match Api.accepted o with
       | Some v => res = Return v
       | None => exists e, res = Throw e
       end.
Proof.
  destruct o as [e | r];
    unfold Api.listDocuments, Api.accepted, Task.tryCatch, Task.bind, Api.getAuthToken;
    branches; eauto 12.
Qed.

Lemma deleteDocument_run w documentId o :
  exists res w',
    Loop.run (Api.deleteDocument documentId w) [o] = Some (res, w')
    /\ comp w' = comp w /\ commits w' = commits w /\ now w' = now w
    /\ match Api.accepted o with
       | Some v => res = Return v
       | None => exists e, res = Throw e
       end.
Proof.
  destruct o as [e | r];
    unfold Api.deleteDocument, Api.accepted, Task.tryCatch, Task.bind, Api.getAuthToken;
    branches; eauto 12.
Qed.

End GatewayFacts.

(** ** Conversation manager *)

(** C5. A send whose input is empty or white space only, or that arrives
    while a question is being answered, does nothing: the handler finishes at
    once on the world it was given, so no message is appended and no request
    is issued.  Both components. *)
Theorem send_is_noop_when_blank_or_answering `{Platform} (input : string) (answering : bool) :
  JsString.blank input = true \/ answering = true ->
  (forall w : World Dashboard.State,
     Dashboard.inputValue (comp w) = input ->
     Dashboard.isProcessing (comp w) = answering ->
     Dashboard.sendMessageToBackend w = Finished (Return tt) w
     /\ forall net, Loop.requests (Dashboard.sendMessageToBackend w) net = [])
  /\ (forall w : World Chat.State,
       Chat.inputValue (comp w) = input ->
       Chat.isProcessing (comp w) = answering ->
       Chat.sendMessageToBackend w = Finished (Return tt) w
       /\ forall net, Loop.requests (Chat.sendMessageToBackend w) net = []).
Proof.
  intros Hguard.
  assert (Hskip : negb (JsString.truthy (JsString.trim input)) || answering = true).
  { destruct Hguard as [Hb | ->]; [by rewrite (trim_blank _ Hb) | apply orb_true_r]. }
  split; intros w Hi Ha.
  - assert (E : Dashboard.sendMessageToBackend w = Finished (Return tt) w).
    { unfold Dashboard.sendMessageToBackend, Task.bind, Task.getState. cbn.
      by rewrite Hi, Ha, Hskip. }
    split; [exact E | intros net; by rewrite E].
  - assert (E : Chat.sendMessageToBackend w = Finished (Return tt) w).
    { unfold Chat.sendMessageToBackend, Task.bind, Task.getState. cbn.
      by rewrite Hi, Ha, Hskip. }
    split; [exact E | intros net; by rewrite E].
Qed.

Lemma send_is_noop_witness :
  (JsString.blank "   " = true \/ false = true)
  /\ Dashboard.sendMessageToBackend (Sample.dashboard "   " false false Dashboard.chat [])
     = Finished (Return tt) (Sample.dashboard "   " false false Dashboard.chat []).
Proof.
  split; [left; reflexivity|].
  exact (proj1 (proj1 (send_is_noop_when_blank_or_answering "   " false (or_introl eq_refl))
                 (Sample.dashboard "   " false false Dashboard.chat []) eq_refl eq_refl)).
Defined.



(** ** Document lifecycle tracker *)

Arguments Dashboard.loadDocuments : simpl never.

Section DashboardFacts.
Context `{Platform}.
Implicit Types (w : World Dashboard.State) (o : FetchOutcome).

Lemma mapDocuments_finished items w :
  exists r, Dashboard.mapDocuments items w = Finished r w.
Proof.
  induction items as [|doc rest [r IH]]; cbn; [eauto|].
  unfold Task.bind, Dashboard.toDocument, Task.bind, Task.getProp.
  destruct (Js.nullish doc); cbn; [eauto|].
  rewrite IH. destruct r; cbn; eauto.
Qed.

(** The refresh of the collection always ends normally, and keeps the local
    collection when the listing call fails. *)
Lemma loadDocuments_run w o :
  exists w',
    Loop.run (Dashboard.loadDocuments w) [o] = Some (Return tt, w')
    /\ (Api.accepted o = None ->
        Dashboard.documents (comp w') = Dashboard.documents (comp w)).
Proof.
  unfold Dashboard.loadDocuments, Api.listDocuments, Api.accepted, Task.tryCatch, Task.bind,
    Api.getAuthToken, Task.getProp.
  destruct o as [e | r]; branches; eauto.
  all: try (destruct (Js.prop _ "documents") as [| | | | |items|] eqn:Hd; cbn; eauto).
  all: try (destruct (mapDocuments_finished items w) as [res ->]; destruct res; cbn).
  all: eexists; (split; [reflexivity | done]).
Qed.

Lemma invalid_cases (file : File) :
  isInvalid file ->
  negb (JsString.endsWith (JsString.toLowerCase (fileName file)) ".pdf") = true
  \/ (negb (JsString.endsWith (JsString.toLowerCase (fileName file)) ".pdf") = false
      /\ (Dashboard.MAX_UPLOAD_SIZE <? fileSize file) = true).
Proof.
  unfold isInvalid. rewrite <- extension_test_false.
  intros Hbad. destruct (JsString.endsWith _ _); cbn.
  - right. split; [done|]. apply Z.ltb_lt.
    destruct Hbad as [? | Hsize]; [done | exact Hsize].
  - by left.
Qed.

Lemma valid_cases (file : File) :
  isValid file ->
  negb (JsString.endsWith (JsString.toLowerCase (fileName file)) ".pdf") = false
  /\ (Dashboard.MAX_UPLOAD_SIZE <? fileSize file) = false.
Proof.
  intros [Hext%extension_test Hsize]. rewrite Hext. split; [done|]. by apply Z.ltb_ge.
Qed.

Lemma dashboard_rejects_invalid_file (file : File) (others : list File) w :
  isInvalid file ->
  exists w' m,
    Dashboard.handleFileUpload (Some (file :: others)) w = Finished (Return tt) w'
    /\ Dashboard.messages (comp w') = Dashboard.messages (comp w) ++ [m]
    /\ MessageItem.role m = assistant
    /\ (MessageItem.content m = JStr "Please upload a PDF file."
        \/ MessageItem.content m
           = JStr "File size exceeds 10MB limit. Please upload a smaller file.")
    /\ Dashboard.documents (comp w') = Dashboard.documents (comp w)
    /\ Dashboard.isUploading (comp w') = Dashboard.isUploading (comp w).
Proof.
  intros [E | [E1 E2]]%invalid_cases; eexists _, _; unfold Dashboard.handleFileUpload.
  - rewrite E. cbn. split; [reflexivity|]. repeat split; auto.
  - rewrite E1, E2. cbn. split; [reflexivity|]. repeat split; auto.
Qed.

Lemma chat_rejects_invalid_file (file : File) (others : list File) (w : World Chat.State) :
  isInvalid file ->
  exists (w' : World Chat.State) m,
    Chat.handleFileUpload (Some (file :: others)) w = Finished (Return tt) w'
    /\ Chat.messages (comp w') = Chat.messages (comp w) ++ [m]
    /\ Chat.role m = assistant
    /\ (Chat.content m = JStr "Please upload a PDF file."
        \/ Chat.content m = JStr "File size exceeds 10MB limit. Please upload a smaller file.")
    /\ Chat.isUploading (comp w') = Chat.isUploading (comp w).
Proof.
  intros [E | [E1 E2]]%invalid_cases; eexists _, _; unfold Chat.handleFileUpload;
    change Chat.MAX_UPLOAD_SIZE with Dashboard.MAX_UPLOAD_SIZE.
  - rewrite E. cbn. split; [reflexivity|]. repeat split; auto.
  - rewrite E1, E2. cbn. split; [reflexivity|]. repeat split; auto.
Qed.


End DashboardFacts.

(** C7. An upload of a file whose name does not end in ".pdf", in whatever
    case, or whose size exceeds 10 MiB, appends one explanatory
    assistant message and ends there: the handler finishes without an await,
    so no request is issued, the collection of documents is as it was and no
    upload is marked in flight.  Both components. *)
Theorem upload_rejected_before_network `{Platform} (file : File) (others : list File) :
  ~ hasPdfExtension (fileName file) \/ 10 * 1024 * 1024 < fileSize file ->
  (forall w : World Dashboard.State,
     exists w' m,
       Dashboard.handleFileUpload (Some (file :: others)) w = Finished (Return tt) w'
       /\ (forall net,
            Loop.requests (Dashboard.handleFileUpload (Some (file :: others)) w) net = [])
       /\ Dashboard.messages (comp w') = Dashboard.messages (comp w) ++ [m]
       /\ MessageItem.role m = assistant
       /\ (MessageItem.content m = JStr "Please upload a PDF file."
           \/ MessageItem.content m
              = JStr "File size exceeds 10MB limit. Please upload a smaller file.")
       /\ Dashboard.documents (comp w') = Dashboard.documents (comp w)
       /\ Dashboard.isUploading (comp w') = Dashboard.isUploading (comp w))
  /\ (forall w : World Chat.State,
       exists w' m,
         Chat.handleFileUpload (Some (file :: others)) w = Finished (Return tt) w'
         /\ (forall net, Loop.requests (Chat.handleFileUpload (Some (file :: others)) w) net = [])
         /\ Chat.messages (comp w') = Chat.messages (comp w) ++ [m]
         /\ Chat.role m = assistant
         /\ (Chat.content m = JStr "Please upload a PDF file."
             \/ Chat.content m
                = JStr "File size exceeds 10MB limit. Please upload a smaller file.")
         /\ Chat.isUploading (comp w') = Chat.isUploading (comp w)).
Proof.
  intros Hbad. split; intros w.
  - destruct (dashboard_rejects_invalid_file file others w Hbad)
      as (w' & m & Hrun & Hm & Hr & Hc & Hd & Hu).
    exists w', m. rewrite Hrun. by repeat split.
  - destruct (chat_rejects_invalid_file file others w Hbad)
      as (w' & m & Hrun & Hm & Hr & Hc & Hu).
    exists w', m. rewrite Hrun. by repeat split.
Qed.

Lemma upload_rejected_witness :
  (~ hasPdfExtension (fileName Sample.image_png)
   \/ 10 * 1024 * 1024 < fileSize Sample.image_png)
  /\ exists w' m,
       Dashboard.handleFileUpload (Some [Sample.image_png])
         (Sample.dashboard "" false false Dashboard.chat [])
       = Finished (Return tt) w'
       /\ Dashboard.messages (comp w') = [m]
       /\ MessageItem.content m = JStr "Please upload a PDF file."
       /\ Dashboard.documents (comp w') = [].
Proof.
  assert (Hbad : ~ hasPdfExtension (fileName Sample.image_png)
                 \/ 10 * 1024 * 1024 < fileSize Sample.image_png).
  { left. by apply extension_test_false. }
  split; [exact Hbad|].
  destruct (proj1 (upload_rejected_before_network Sample.image_png [] Hbad)
              (Sample.dashboard "" false false Dashboard.chat []))
    as (w' & m & Hrun & _ & Hm & _ & _ & Hd & _).
  exists w', m. repeat split; try assumption.
  injection Hrun as <-. injection Hm as <-. reflexivity.
Defined.





Section UploadGuards.
Context `{Platform}.

(** Where the guard on [isUploading] is: on the sidebar button of the
    dashboard and on the one button of the chat page. *)
Lemma guarded_upload_buttons (files : option (list File)) :
  (forall w : World Dashboard.State,
     Dashboard.isUploading (comp w) = true ->
     Dashboard.pickFiles Dashboard.SidebarUpload files w = Finished (Return tt) w)
  /\ (forall w : World Chat.State,
       Chat.isUploading (comp w) = true ->
       Chat.pickFiles files w = Finished (Return tt) w).
Proof.
  split; intros w Hbusy.
  - unfold Dashboard.pickFiles, Task.bind. cbn. by rewrite Hbusy.
  - unfold Chat.pickFiles, Task.bind. cbn. by rewrite Hbusy.
Qed.

End UploadGuards.

(** C4, the code at a failing input: while the upload of a first file is in
    flight and [isUploading] is true, the sidebar button is disabled, but the
    button of the Documents tab is not, and the handler it leads to starts a
    second upload: two upload requests await their response together. *)
Theorem second_upload_while_uploading :
  let l1 :=
    Loop.dispatch (Dashboard.pickFiles Dashboard.SidebarUpload (Some [Sample.report_pdf]))
      (Loop.start (Sample.dashboard "" false false Dashboard.chat [])) in
  let l2 := Loop.dispatch (Dashboard.selectTab Dashboard.documents_tab) l1 in
  let l3 :=
    Loop.dispatch (Dashboard.pickFiles Dashboard.DocumentsUpload (Some [Sample.notes_pdf])) l2 in
  Dashboard.isUploading (comp (Loop.world l2)) = true
  /\ Loop.inFlight l2 = [mkRequest "/upload" POST [] (FormData Sample.report_pdf)]
  /\ Loop.inFlight
       (Loop.dispatch (Dashboard.pickFiles Dashboard.SidebarUpload (Some [Sample.notes_pdf])) l2)
     = Loop.inFlight l2
  /\ Loop.inFlight l3
     = [mkRequest "/upload" POST [] (FormData Sample.report_pdf);
        mkRequest "/upload" POST [] (FormData Sample.notes_pdf)].
Proof.
  cbv zeta. repeat split; vm_compute; reflexivity.
Qed.

(** C8, the claim as stated fails: the gateway confirms the deletion of an id
    the local collection does not hold, and no entry is removed. *)
Lemma delete_absent_id_removes_nothing :
  Api.accepted (Sample.respond 200 "OK" (JObj [("message", JStr "deleted")]))
  = Some (JObj [("message", JStr "deleted")])
  /\ Dashboard.documents
       <$> Loop.state
             (Dashboard.handleDeleteDocument "2"
                (Sample.dashboard "" false false Dashboard.documents_tab
                   [Sample.stored "1" "a.pdf"]))
             [Sample.respond 200 "OK" (JObj [("message", JStr "deleted")])]
     = Some [Sample.stored "1" "a.pdf"].
Proof. split; vm_compute; reflexivity. Qed.

Lemma filter_split_length {A} (p : A -> bool) (l : list A) :
  (length (List.filter (fun x => negb (p x)) l) + length (List.filter p l) = length l)%nat.
Proof.
  induction l as [|x l IH]; cbn; [done|].
  destruct (p x); cbn; lia.
Qed.

(** C8, as amended.  The handler first issues the DELETE request, on the
    world as it found it.  If the gateway call fails the collection is
    unchanged; if it succeeds the collection loses the entries that carry the
    id, all of them and nothing else: one entry when the id occurs once, none
    when it does not occur. *)
Theorem delete_after_confirmation `{Platform} (id : string) (w : World Dashboard.State)
    (o : FetchOutcome) :
  (exists k,
     Dashboard.handleDeleteDocument id w
     = AwaitFetch
         (mkRequest (Api.API_BASE +:+ "/documents/" +:+ id) DELETE
            (Api.authHeader (authToken w)) NoBody) w k)
  /\ exists w',
       Loop.run (Dashboard.handleDeleteDocument id w) [o] = Some (Return tt, w')
       /\ Dashboard.documents (comp w')
          = match Api.accepted o with
            | Some _ =>
                List.filter (fun doc => negb (Js.strictEqStr (Document.id doc) id))
                  (Dashboard.documents (comp w))
            | None => Dashboard.documents (comp w)
            end
       /\ (length (Dashboard.documents (comp w'))
           + match Api.accepted o with
             | Some _ => length (withId id (Dashboard.documents (comp w)))
             | None => 0
             end
           = length (Dashboard.documents (comp w)))%nat.
Proof.
  split; [eexists; reflexivity|].
  unfold Dashboard.handleDeleteDocument, Api.deleteDocument, Api.accepted, Task.tryCatch,
    Task.bind, Api.getAuthToken, withId.
  destruct o as [e | r]; branches;
    (eexists; split; [reflexivity|]; cbn; split; [reflexivity|]);
    first [apply filter_split_length | lia].
Qed.

(** ** Request gateway *)

(** C3, the claim as stated fails: answered with 401, [deleteDocument]
    rejects with the error it built; it does not resolve to a value. *)
Lemma deleteDocument_rejects_on_401 :
  Loop.outcome (Api.deleteDocument (H := Reference.platform) "1" Sample.gateway)
    [Sample.unauthorized]
  = Some (Throw (Error "Authentication required. Please login.")).
Proof. vm_compute; reflexivity. Qed.

(** C3, as amended.  For every outcome of the fetch, [sendMessage],
    [uploadFile], [login] and [getStatus] resolve to a value; [listDocuments]
    and [deleteDocument] resolve to the parsed body when the response is ok
    and parses, and reject with an error otherwise. *)
Theorem gateway_boundary `{Platform} {S : Type} (w : World S) (o : FetchOutcome)
    (question : string) (temp : number) (file : File) (username password documentId : string) :
  (exists v, Loop.outcome (Api.sendMessage question temp w) [o] = Some (Return v))
  /\ (exists v, Loop.outcome (Api.uploadFile file w) [o] = Some (Return v))
  /\ (exists v, Loop.outcome (Api.login username password w) [o] = Some (Return v))
  /\ (exists v, Loop.outcome (Api.getStatus w) [o] = Some (Return v))
  /\ match Api.accepted o with
     | Some v =>
         Loop.outcome (Api.listDocuments w) [o] = Some (Return v)
         /\ Loop.outcome (Api.deleteDocument documentId w) [o] = Some (Return v)
     | None =>
         (exists e, Loop.outcome (Api.listDocuments w) [o] = Some (Throw e))
         /\ (exists e, Loop.outcome (Api.deleteDocument documentId w) [o] = Some (Throw e))
     end.
Proof.
  unfold Loop.outcome.
  destruct (sendMessage_run w question temp o) as (r1 & w1 & -> & _).
  destruct (uploadFile_run w file o) as (r2 & w2 & -> & _).
  destruct (login_run w username password o) as (r3 & w3 & ->).
  destruct (getStatus_run w o) as (r4 & w4 & -> & _).
  destruct (listDocuments_run w o) as (r5 & w5 & -> & _ & _ & _ & H5).
  destruct (deleteDocument_run w documentId o) as (r6 & w6 & -> & _ & _ & _ & H6).
  cbn. repeat (split; [eauto|]).
  destruct (Api.accepted o) as [v|].
  - by subst.
  - destruct H5 as [e5 ->], H6 as [e6 ->]. eauto.
Qed.


Section TryBlocks.
Context `{Platform}.

(** After the refresh at the end of the upload, nothing is left to run. *)
Ltac refresh :=
  match goal with
  | |- context [Loop.run (Dashboard.loadDocuments ?w) [?o]] =>
      destruct (loadDocuments_run w o) as (? & -> & _)
  end.





End TryBlocks.


(** ** Config store *)

(** C9, the claim as stated fails: the chunk size typed into the Settings
    panel is held by its input only.  Nothing is written to the store, and a
    fresh load shows "300" again, not the "500" that was set. *)
Lemma chunk_size_not_persisted :
  Dashboard.chunkSize
    <$> Loop.state
          (Dashboard.typeChunkSize "500" (Sample.dashboard "" false false Dashboard.settings []))
          []
  = Some "500"
  /\ Loop.store
       (Dashboard.typeChunkSize "500" (Sample.dashboard "" false false Dashboard.settings []))
       []
     = Some (localStorage (Sample.dashboard "" false false Dashboard.settings []))
  /\ (fun persisted =>
       Dashboard.chunkSize (Dashboard.initialState (H := Reference.platform) persisted))
       <$> Loop.store
             (Dashboard.typeChunkSize "500"
                (Sample.dashboard "" false false Dashboard.settings []))
             []
     = Some "300".
Proof. repeat split. Qed.

Section ConfigFacts.
Context `{Platform}.
Implicit Types (w : World Dashboard.State) (persisted : gmap string string).

Lemma initialState_defaults :
  Dashboard.temperature (Dashboard.initialState ∅) = parseFloat "0.1"
  /\ Dashboard.model (Dashboard.initialState ∅) = "Flan-T5 Small"
  /\ Dashboard.darkMode (Dashboard.initialState ∅) = false.
Proof. by cbn. Qed.

Lemma initialState_advanced persisted :
  Dashboard.chunkSize (Dashboard.initialState persisted) = "300"
  /\ Dashboard.chunkOverlap (Dashboard.initialState persisted) = "50"
  /\ Dashboard.maxTokens (Dashboard.initialState persisted) = "300".
Proof. by cbn. Qed.

Lemma onTemperatureChange_run w value :
  Object_is (Dashboard.temperature (comp w)) (parseFloat value) = false ->
  exists w',
    Dashboard.onTemperatureChange value w = Finished (Return tt) w'
    /\ Dashboard.temperature (comp w') = parseFloat value
    /\ localStorage w'
       = <[Dashboard.KEY_TEMPERATURE := Number_toString (parseFloat value)]> (localStorage w).
Proof.
  intros Hchanged.
  unfold Dashboard.onTemperatureChange, Dashboard.runEffects, Task.bind. cbn.
  rewrite Hchanged, String.eqb_refl, Bool.eqb_reflx. cbn. eauto.
Qed.

Lemma onModelChange_run w value :
  value <> Dashboard.model (comp w) ->
  exists w',
    Dashboard.onModelChange value w = Finished (Return tt) w'
    /\ Dashboard.model (comp w') = value
    /\ localStorage w' = <[Dashboard.KEY_MODEL := value]> (localStorage w).
Proof.
  intros Hchanged. apply not_eq_sym, String.eqb_neq in Hchanged.
  unfold Dashboard.onModelChange, Dashboard.runEffects, Task.bind. cbn.
  rewrite Hchanged, Bool.eqb_reflx, Object_is_refl. cbn. eauto.
Qed.

Lemma onDarkModeChange_run w checked :
  checked <> Dashboard.darkMode (comp w) ->
  exists w',
    Dashboard.onDarkModeChange checked w = Finished (Return tt) w'
    /\ Dashboard.darkMode (comp w') = checked
    /\ localStorage w'
       = <[Dashboard.KEY_DARK_MODE := Dashboard.Boolean_toString checked]> (localStorage w).
Proof.
  intros Hchanged.
  assert (E : Bool.eqb (Dashboard.darkMode (comp w)) checked = false).
  { apply Bool.eqb_false_iff. congruence. }
  unfold Dashboard.onDarkModeChange, Dashboard.runEffects, Task.bind. cbn.
  rewrite E, String.eqb_refl, Object_is_refl. cbn. eauto.
Qed.

(** What a fresh load makes of a store in which one key was written. *)
Lemma load_after_temperature persisted (t : number) :
  parseFloat (Number_toString t) = t ->
  Number_toString t <> "" ->
  let persisted' := <[Dashboard.KEY_TEMPERATURE := Number_toString t]> persisted in
  Dashboard.temperature (Dashboard.initialState persisted') = t
  /\ Dashboard.model (Dashboard.initialState persisted')
     = Dashboard.model (Dashboard.initialState persisted)
  /\ Dashboard.darkMode (Dashboard.initialState persisted')
     = Dashboard.darkMode (Dashboard.initialState persisted).
Proof.
  intros Hround Hshown persisted'. unfold persisted'. cbn.
  rewrite lookup_insert_eq.
  rewrite !lookup_insert_ne by done.
  split; [|done].
  destruct (Number_toString t); [done | exact Hround].
Qed.

Lemma load_after_model persisted (value : string) :
  value <> "" ->
  let persisted' := <[Dashboard.KEY_MODEL := value]> persisted in
  Dashboard.model (Dashboard.initialState persisted') = value
  /\ Dashboard.temperature (Dashboard.initialState persisted')
     = Dashboard.temperature (Dashboard.initialState persisted)
  /\ Dashboard.darkMode (Dashboard.initialState persisted')
     = Dashboard.darkMode (Dashboard.initialState persisted).
Proof.
  intros Hshown persisted'. unfold persisted'. cbn.
  rewrite lookup_insert_eq.
  rewrite !lookup_insert_ne by done.
  split; [|done]. by destruct value.
Qed.

Lemma load_after_darkMode persisted (checked : bool) :
  let persisted' := <[Dashboard.KEY_DARK_MODE := Dashboard.Boolean_toString checked]> persisted in
  Dashboard.darkMode (Dashboard.initialState persisted') = checked
  /\ Dashboard.temperature (Dashboard.initialState persisted')
     = Dashboard.temperature (Dashboard.initialState persisted)
  /\ Dashboard.model (Dashboard.initialState persisted')
     = Dashboard.model (Dashboard.initialState persisted).
Proof.
  intros persisted'. unfold persisted'. cbn.
  rewrite lookup_insert_eq.
  rewrite !lookup_insert_ne by done.
  split; [|done]. by destruct checked.
Qed.

Lemma typing_advanced_keeps_store w value :
  (exists w', Dashboard.typeChunkSize value w = Finished (Return tt) w'
              /\ Dashboard.chunkSize (comp w') = value /\ localStorage w' = localStorage w)
  /\ (exists w', Dashboard.typeChunkOverlap value w = Finished (Return tt) w'
                 /\ Dashboard.chunkOverlap (comp w') = value /\ localStorage w' = localStorage w)
  /\ (exists w', Dashboard.typeMaxTokens value w = Finished (Return tt) w'
                 /\ Dashboard.maxTokens (comp w') = value /\ localStorage w' = localStorage w).
Proof. repeat split; eexists; (split; [reflexivity|]); by cbn. Qed.

End ConfigFacts.

(** C9, as amended.  The three settings the component keeps in state are
    persisted each under its own key as soon as they change: setting the
    temperature writes its printed value under the temperature key and
    nothing else, so that a fresh load yields the new temperature (for every
    number that survives printing and parsing, as 0.7 does) and the model and
    theme it yielded before; likewise for the model and the theme.  With
    nothing persisted the load falls back to temperature 0.1, model
    "Flan-T5 Small" and a light theme.  Chunk size, chunk overlap and max
    tokens are never persisted: typing them changes no key of the store, and
    every load shows "300", "50" and "300". *)
Theorem config_persistence `{Platform} (w : World Dashboard.State) (value : string) :
  parseFloat (Number_toString (parseFloat value)) = parseFloat value ->
  Number_toString (parseFloat value) <> "" ->
  Object_is (Dashboard.temperature (comp w)) (parseFloat value) = false ->
  (exists w',
     Dashboard.onTemperatureChange value w = Finished (Return tt) w'
     /\ localStorage w'
        = <[Dashboard.KEY_TEMPERATURE := Number_toString (parseFloat value)]> (localStorage w)
     /\ Dashboard.temperature (Dashboard.initialState (localStorage w')) = parseFloat value
     /\ Dashboard.model (Dashboard.initialState (localStorage w'))
        = Dashboard.model (Dashboard.initialState (localStorage w))
     /\ Dashboard.darkMode (Dashboard.initialState (localStorage w'))
        = Dashboard.darkMode (Dashboard.initialState (localStorage w)))
  /\ (forall chosen,
       chosen <> "" -> chosen <> Dashboard.model (comp w) ->
       exists w',
         Dashboard.onModelChange chosen w = Finished (Return tt) w'
         /\ localStorage w' = <[Dashboard.KEY_MODEL := chosen]> (localStorage w)
         /\ Dashboard.model (Dashboard.initialState (localStorage w')) = chosen
         /\ Dashboard.temperature (Dashboard.initialState (localStorage w'))
            = Dashboard.temperature (Dashboard.initialState (localStorage w))
         /\ Dashboard.darkMode (Dashboard.initialState (localStorage w'))
            = Dashboard.darkMode (Dashboard.initialState (localStorage w)))
  /\ (forall checked,
       checked <> Dashboard.darkMode (comp w) ->
       exists w',
         Dashboard.onDarkModeChange checked w = Finished (Return tt) w'
         /\ localStorage w'
            = <[Dashboard.KEY_DARK_MODE := Dashboard.Boolean_toString checked]> (localStorage w)
         /\ Dashboard.darkMode (Dashboard.initialState (localStorage w')) = checked
         /\ Dashboard.temperature (Dashboard.initialState (localStorage w'))
            = Dashboard.temperature (Dashboard.initialState (localStorage w))
         /\ Dashboard.model (Dashboard.initialState (localStorage w'))
            = Dashboard.model (Dashboard.initialState (localStorage w)))
  /\ (Dashboard.temperature (Dashboard.initialState ∅) = parseFloat "0.1"
      /\ Dashboard.model (Dashboard.initialState ∅) = "Flan-T5 Small"
      /\ Dashboard.darkMode (Dashboard.initialState ∅) = false)
  /\ (forall typed,
       (exists w', Dashboard.typeChunkSize typed w = Finished (Return tt) w'
                   /\ Dashboard.chunkSize (comp w') = typed
                   /\ localStorage w' = localStorage w)
       /\ (exists w', Dashboard.typeChunkOverlap typed w = Finished (Return tt) w'
                      /\ Dashboard.chunkOverlap (comp w') = typed
                      /\ localStorage w' = localStorage w)
       /\ (exists w', Dashboard.typeMaxTokens typed w = Finished (Return tt) w'
                      /\ Dashboard.maxTokens (comp w') = typed
                      /\ localStorage w' = localStorage w))
  /\ (forall persisted : gmap string string,
       Dashboard.chunkSize (Dashboard.initialState persisted) = "300"
       /\ Dashboard.chunkOverlap (Dashboard.initialState persisted) = "50"
       /\ Dashboard.maxTokens (Dashboard.initialState persisted) = "300").
Proof.
  intros Hround Hshown Hchanged.
  split; [|split; [|split; [|split; [|split]]]].
  - destruct (onTemperatureChange_run w value Hchanged) as (w' & Hrun & _ & Hstore).
    exists w'. split; [exact Hrun|]. split; [exact Hstore|].
    rewrite Hstore. by apply load_after_temperature.
  - intros chosen Hne Hdiff.
    destruct (onModelChange_run w chosen Hdiff) as (w' & Hrun & _ & Hstore).
    exists w'. split; [exact Hrun|]. split; [exact Hstore|].
    rewrite Hstore. by apply load_after_model.
  - intros checked Hdiff.
    destruct (onDarkModeChange_run w checked Hdiff) as (w' & Hrun & _ & Hstore).
    exists w'. split; [exact Hrun|]. split; [exact Hstore|].
    rewrite Hstore. apply load_after_darkMode.
  - apply initialState_defaults.
  - intros typed. apply typing_advanced_keeps_store.
  - apply initialState_advanced.
Qed.

Lemma config_persistence_witness :
  (Reference.parse (Reference.print (Reference.parse "0.7")) = Reference.parse "0.7"
   /\ Reference.print (Reference.parse "0.7") <> ""
   /\ Reference.same (Reference.Tenths 1) (Reference.parse "0.7") = false)
  /\ exists w' : World (@Dashboard.State Reference.platform),
       Dashboard.onTemperatureChange "0.7" (Sample.dashboard "" false false Dashboard.settings [])
       = Finished (Return tt) w'
       /\ Dashboard.temperature
            (Dashboard.initialState (H := Reference.platform) (localStorage w'))
          = Reference.Tenths 7
       /\ Dashboard.model (Dashboard.initialState (H := Reference.platform) (localStorage w'))
          = "Flan-T5 Small"
       /\ Dashboard.darkMode (Dashboard.initialState (H := Reference.platform) (localStorage w'))
          = false.
Proof.
  assert (H1 : Reference.parse (Reference.print (Reference.parse "0.7")) = Reference.parse "0.7")
    by reflexivity.
  assert (H2 : Reference.print (Reference.parse "0.7") <> "") by (vm_compute; discriminate).
  assert (H3 : Reference.same (Reference.Tenths 1) (Reference.parse "0.7") = false)
    by reflexivity.
  split; [by repeat split|].
  destruct (proj1 (config_persistence (H := Reference.platform)
                     (Sample.dashboard "" false false Dashboard.settings []) "0.7" H1 H2 H3))
    as (w' & Hrun & _ & Ht & Hm & Hd).
  exists w'. split; [exact Hrun|]. split; [exact Ht|]. split; [exact Hm | exact Hd].
Defined.

(** * Further properties of the code *)

(** ** The gateway, call by call *)

Section GatewayExtras.
Context `{Platform} {S : Type}.
Implicit Types (w : World S) (o : FetchOutcome).

(** X1. Every call of the gateway issues exactly one request, whatever the
    answer is: nothing is retried.  The request is the one of the endpoint,
    with the [Authorization] header of the token held when the call starts;
    [login] sends no such header. *)
Theorem gateway_issues_one_request w o (net : list FetchOutcome)
    (question : string) (temp : number) (file : File) (username password documentId : string) :
  Loop.requests (Api.sendMessage question temp w) (o :: net)
  = [mkRequest (Api.API_BASE +:+ "/chat") POST
       (("Content-Type", "application/json") :: Api.authHeader (authToken w))
       (ChatBody question temp)]
  /\ Loop.requests (Api.uploadFile file w) (o :: net)
     = [mkRequest (Api.API_BASE +:+ "/upload") POST (Api.authHeader (authToken w))
          (FormData file)]
  /\ Loop.requests (Api.login username password w) (o :: net)
     = [mkRequest (Api.API_BASE +:+ "/login") POST [("Content-Type", "application/json")]
          (LoginBody username password)]
  /\ Loop.requests (Api.getStatus w) (o :: net)
     = [mkRequest (Api.API_BASE +:+ "/status") GET (Api.authHeader (authToken w)) NoBody]
  /\ Loop.requests (Api.listDocuments w) (o :: net)
     = [mkRequest (Api.API_BASE +:+ "/documents") GET (Api.authHeader (authToken w)) NoBody]
  /\ Loop.requests (Api.deleteDocument documentId w) (o :: net)
     = [mkRequest (Api.API_BASE +:+ "/documents/" +:+ documentId) DELETE
          (Api.authHeader (authToken w)) NoBody].
Proof.
  repeat split.
  - unfold Api.sendMessage, Task.tryCatch, Task.bind, Api.getAuthToken, Task.getProp.
    destruct o as [e | r]; branches; reflexivity.
  - unfold Api.uploadFile, Task.tryCatch, Task.bind, Api.getAuthToken.
    destruct o as [e | r]; branches; reflexivity.
  - unfold Api.login, Task.tryCatch, Task.bind, Task.getProp, Task.lift, Api.setAuthToken.
    destruct o as [e | r]; branches; reflexivity.
  - unfold Api.getStatus, Task.tryCatch, Task.bind, Api.getAuthToken.
    destruct o as [e | r]; branches; reflexivity.
  - unfold Api.listDocuments, Task.tryCatch, Task.bind, Api.getAuthToken.
    destruct o as [e | r]; branches; reflexivity.
  - unfold Api.deleteDocument, Task.tryCatch, Task.bind, Api.getAuthToken.
    destruct o as [e | r]; branches; reflexivity.
Qed.


(** X3. For a response that is not ok, the text [sendMessage] and
    [uploadFile] resolve to depends on the status alone: the error thrown for
    the status comes back unchanged through the [catch], as the [response]
    of the one and the [error] of the other.  The body of the response is
    never read. *)
Theorem failure_text_by_status w (r : Response) (question : string) (temp : number)
    (file : File) :
  ok r = false ->
  Loop.outcome (Api.sendMessage question temp w) [Responded r]
  = Some (Return (JObj [("response", JStr
       (if status r =? 401 then "Authentication required. Please login."
        else if status r =? 404 then
          "Service not found. Please check if the backend server is running."
        else if 500 <=? status r then "Server error. Please try again later."
        else "Backend error: " +:+ JsString.ofZ (status r) +:+ " " +:+ statusText r))]))
  /\ Loop.outcome (Api.uploadFile file w) [Responded r]
     = Some (Return (JObj [("error", JStr
          (if status r =? 401 then "Authentication required. Please login."
           else if status r =? 413 then "File too large. Please upload a smaller file."
           else "Upload failed: " +:+ JsString.ofZ (status r) +:+ " " +:+ statusText r))])).
Proof.
  intros Hok. split.
  - unfold Loop.outcome, Api.sendMessage, Task.tryCatch, Task.bind, Api.getAuthToken,
      Task.getProp, Api.statusLine.
    cbn. rewrite Hok. branches; reflexivity.
  - unfold Loop.outcome, Api.uploadFile, Task.tryCatch, Task.bind, Api.getAuthToken,
      Api.statusLine.
    cbn. rewrite Hok. branches; reflexivity.
Qed.

(** X4. A fetch that rejects and an ok response whose body does not parse
    are not told apart: [sendMessage] and [uploadFile] resolve to the same
    text for both, chosen by the class and the message of the error only. *)
Theorem failure_text_by_error w (e : JsError) (code : Z) (reason : string)
    (question : string) (temp : number) (file : File) :
  let unparsed := Responded (mkResponse code reason (Throw e)) in
  (200 <=? code) && (code <=? 299) = true ->
  (forall o, o = Rejected e \/ o = unparsed ->
     Loop.outcome (Api.sendMessage question temp w) [o]
     = Some (Return (JObj [("response", JStr
          (caughtText e "An unexpected error occurred. Please try again."))]))
     /\ Loop.outcome (Api.uploadFile file w) [o]
        = Some (Return (JObj [("error", JStr
             (caughtText e "File upload failed. Please try again."))]))).
Proof.
  intros unparsed Hok o [-> | ->]; unfold unparsed, caughtText, Api.isFetchTypeError.
  - split.
    + unfold Loop.outcome, Api.sendMessage, Task.tryCatch, Task.bind, Api.getAuthToken,
        Api.isFetchTypeError. branches; reflexivity.
    + unfold Loop.outcome, Api.uploadFile, Task.tryCatch, Task.bind, Api.getAuthToken,
        Api.isFetchTypeError. branches; reflexivity.
  - split.
    + unfold Loop.outcome, Api.sendMessage, Task.tryCatch, Task.bind, Api.getAuthToken,
        Api.isFetchTypeError, ok. cbn. rewrite Hok. branches; reflexivity.
    + unfold Loop.outcome, Api.uploadFile, Task.tryCatch, Task.bind, Api.getAuthToken,
        Api.isFetchTypeError, ok. cbn. rewrite Hok. branches; reflexivity.
Qed.

(** X5. [getStatus] never rejects and answers [null] to every failure: it
    resolves to the parsed body of an ok response, and to [null] for a fetch
    that rejects, a response that is not ok and a body that does not parse. *)
Theorem getStatus_null_on_failure w o :
  Loop.outcome (Api.getStatus w) [o]
  = Some (Return (match Api.accepted o with Some v => v | None => JNull end)).
Proof.
  unfold Loop.outcome, Api.getStatus, Api.accepted, Task.tryCatch, Task.bind,
    Api.getAuthToken.
  destruct o as [e | r]; branches; reflexivity.
Qed.

(** X6. [login] stores a token exactly when the answer is ok, parses to a
    body with a truthy [success], and the credentials encode; the token is
    then [btoa(username:password)] and the body is handed back as it came.
    In every other case the token is the one held before.  The component and
    the store are never touched. *)
Theorem login_token w (username password : string) o :
  exists res w',
    Loop.run (Api.login username password w) [o] = Some (Return res, w')
    /\ comp w' = comp w /\ localStorage w' = localStorage w
    /\ match Api.accepted o, btoa (username +:+ ":" +:+ password) with
       | Some v, Return token =>
           if negb (Js.nullish v) && Js.truthy (Js.prop v "success")
           then authToken w' = Some token /\ res = v
           else authToken w' = authToken w
       | _, _ => authToken w' = authToken w
       end.
Proof.
  unfold Api.login, Api.accepted, Task.tryCatch, Task.bind, Task.getProp, Task.lift,
    Api.setAuthToken.
  destruct o as [e | r]; branches; try (eexists _, _; split; [reflexivity|]; cbn; eauto).
  all: destruct (btoa _); cbn; eauto.
Qed.

(** X7. The call that follows a login carries the token the login was
    granted, and the token held before when the login was not granted one:
    a failed login does not sign the session out. *)
Theorem request_after_login w (username password question : string) (temp : number)
    (documentId : string) (o1 o2 : FetchOutcome) :
  let token :=
    match granted username password o1 with
    | Some t => Some t
    | None => authToken w
    end in
  Loop.requests ((Api.login username password ;;; Api.sendMessage question temp) w) [o1; o2]
  = [mkRequest (Api.API_BASE +:+ "/login") POST [("Content-Type", "application/json")]
       (LoginBody username password);
     mkRequest (Api.API_BASE +:+ "/chat") POST
       (("Content-Type", "application/json") :: Api.authHeader token)
       (ChatBody question temp)]
  /\ Loop.requests ((Api.login username password ;;; Api.deleteDocument documentId) w) [o1; o2]
     = [mkRequest (Api.API_BASE +:+ "/login") POST [("Content-Type", "application/json")]
          (LoginBody username password);
        mkRequest (Api.API_BASE +:+ "/documents/" +:+ documentId) DELETE
          (Api.authHeader token) NoBody].
Proof.
  unfold granted, Api.accepted, Api.login, Task.tryCatch, Task.bind, Task.getProp, Task.lift,
    Api.setAuthToken.
  split.
  - unfold Api.sendMessage, Task.tryCatch, Task.bind, Api.getAuthToken, Task.getProp.
    destruct o1 as [e | r]; branches.
    all: try match goal with
             | Hn : Js.nullish ?a = true |- _ => destruct a; try discriminate; cbn in *
             end.
    all: try (destruct (btoa _); cbn).
    all: destruct o2; branches; reflexivity.
  - unfold Api.deleteDocument, Task.tryCatch, Task.bind, Api.getAuthToken.
    destruct o1 as [e | r]; branches.
    all: try match goal with
             | Hn : Js.nullish ?a = true |- _ => destruct a; try discriminate; cbn in *
             end.
    all: try (destruct (btoa _); cbn).
    all: destruct o2; branches; reflexivity.
Qed.

End GatewayExtras.

Lemma failure_text_by_status_witness :
  ok (mkResponse 413 "Payload Too Large" (Return JNull)) = false
  /\ Loop.outcome (Api.uploadFile (H := Reference.platform) Sample.report_pdf Sample.gateway)
       [Responded (mkResponse 413 "Payload Too Large" (Return JNull))]
     = Some (Return (JObj [("error", JStr "File too large. Please upload a smaller file.")])).
Proof.
  split; [reflexivity|].
  exact (proj2 (failure_text_by_status (H := Reference.platform) Sample.gateway
                  (mkResponse 413 "Payload Too Large" (Return JNull)) "What is the answer?"
                  (Reference.Tenths 1) Sample.report_pdf eq_refl)).
Defined.

Lemma failure_text_by_error_witness :
  (200 <=? 200) && (200 <=? 299) = true
  /\ Loop.outcome
       (Api.sendMessage (H := Reference.platform) "What is the answer?" (Reference.Tenths 1)
          Sample.gateway)
       [Responded (mkResponse 200 "OK" (Throw (Error "Unexpected token < in JSON")))]
     = Some (Return (JObj [("response", JStr "Unexpected token < in JSON")])).
Proof.
  split; [reflexivity|].
  exact (proj1 (failure_text_by_error (H := Reference.platform) Sample.gateway
                  (Error "Unexpected token < in JSON") 200 "OK" "What is the answer?"
                  (Reference.Tenths 1) Sample.report_pdf eq_refl
                  (Responded (mkResponse 200 "OK" (Throw (Error "Unexpected token < in JSON"))))
                  (or_intror eq_refl))).
Defined.

(** ** More on strings *)

Lemma trimStart_empty (s : string) : JsString.trimStart s = "" -> JsString.blank s = true.
Proof.
  induction s as [|c s IH]; cbn; [done|].
  destruct (JsString.isWhiteSpace c); [exact IH | done].
Qed.

Lemma trimStart_head (s : string) (c : ascii) (rest : string) :
  JsString.trimStart s = String c rest -> JsString.isWhiteSpace c = false.
Proof.
  induction s as [|x s IH]; cbn; [done|].
  destruct (JsString.isWhiteSpace x) eqn:Hx; [exact IH|].
  intros [= <- _]. exact Hx.
Qed.

Lemma blank_append (a b : string) :
  JsString.blank (a +:+ b) = JsString.blank a && JsString.blank b.
Proof.
  induction a as [|x a IH]; [done|].
  rewrite append_cons. unfold JsString.blank in *. cbn. by rewrite IH, andb_assoc.
Qed.

Lemma blank_rev (s : string) : JsString.blank (String.rev s) = JsString.blank s.
Proof.
  induction s as [|x s IH]; [done|].
  rewrite rev_cons, blank_append, IH. unfold JsString.blank. cbn.
  by rewrite andb_true_r, andb_comm.
Qed.

Lemma rev_empty (s : string) : String.rev s = "" -> s = "".
Proof. intros Hs. by rewrite <- (rev_involutive s), Hs. Qed.

Lemma trim_empty (s : string) : JsString.trim s = "" -> JsString.blank s = true.
Proof.
  unfold JsString.trim, JsString.trimEnd. intros Hs%rev_empty%trimStart_empty.
  rewrite blank_rev in Hs.
  destruct (JsString.trimStart s) as [|c rest] eqn:Ht; [by apply trimStart_empty|].
  apply trimStart_head in Ht. unfold JsString.blank in Hs. cbn in Hs.
  by rewrite Ht in Hs.
Qed.

Lemma not_blank_trim (s : string) :
  JsString.blank s = false -> negb (JsString.truthy (JsString.trim s)) = false.
Proof.
  intros Hs. destruct (JsString.trim s) eqn:Ht; [|done].
  apply trim_empty in Ht. congruence.
Qed.


(** ** A send that goes out *)

Section ConversationExtras.
Context `{Platform}.

(** X8. A send with some text, while no question is being answered, puts
    the question on the timeline at once and then asks the backend: when the
    handler reaches its await, the user's message is appended, the input is
    cleared and the answering flag is set.  The request carries the input as
    typed, not trimmed, and the temperature of the settings (Dashboard) or
    0.1 (Chat). *)
Theorem send_shows_question_before_asking (input : string) :
  JsString.blank input = false ->
  (forall w : World Dashboard.State,
     Dashboard.inputValue (comp w) = input ->
     Dashboard.isProcessing (comp w) = false ->
     exists w1 k,
       Dashboard.sendMessageToBackend w
       = AwaitFetch
           (mkRequest (Api.API_BASE +:+ "/chat") POST
              (("Content-Type", "application/json") :: Api.authHeader (authToken w))
              (ChatBody input (Dashboard.temperature (comp w)))) w1 k
       /\ Dashboard.messages (comp w1)
          = Dashboard.messages (comp w)
            ++ [MessageItem.mk (JsString.ofZ (now w)) user (JStr input) (DateAt (now w))]
       /\ Dashboard.inputValue (comp w1) = ""
       /\ Dashboard.isProcessing (comp w1) = true)
  /\ (forall w : World Chat.State,
       Chat.inputValue (comp w) = input ->
       Chat.isProcessing (comp w) = false ->
       exists w1 k,
         Chat.sendMessageToBackend w
         = AwaitFetch
             (mkRequest (Api.API_BASE +:+ "/chat") POST
                (("Content-Type", "application/json") :: Api.authHeader (authToken w))
                (ChatBody input (parseFloat "0.1"))) w1 k
         /\ Chat.messages (comp w1) = Chat.messages (comp w) ++ [Chat.mkMessage user (JStr input)]
         /\ Chat.inputValue (comp w1) = ""
         /\ Chat.isProcessing (comp w1) = true).
Proof.
  intros Hgo%not_blank_trim. split; intros w Hi Ha.
  - unfold Dashboard.sendMessageToBackend, Task.bind, Task.getState. cbn.
    rewrite Hi, Ha, Hgo. cbn. eexists _, _. split; [reflexivity|]. by cbn.
  - unfold Chat.sendMessageToBackend, Task.bind, Task.getState. cbn.
    rewrite Hi, Ha, Hgo. cbn. eexists _, _. split; [reflexivity|]. by cbn.
Qed.


End ConversationExtras.

Lemma send_shows_question_witness :
  JsString.blank " What is the answer? " = false
  /\ exists w1 k,
       Dashboard.sendMessageToBackend
         (Sample.dashboard " What is the answer? " false false Dashboard.chat [])
       = AwaitFetch
           (mkRequest (H := Reference.platform) (Api.API_BASE +:+ "/chat") POST
              (("Content-Type", "application/json")
               :: Api.authHeader
                    (authToken
                       (Sample.dashboard " What is the answer? " false false Dashboard.chat [])))
              (ChatBody (H := Reference.platform) " What is the answer? " (Reference.Tenths 1)))
           w1 k
       /\ Dashboard.inputValue (comp w1) = ""
       /\ Dashboard.isProcessing (comp w1) = true.
Proof.
  split; [reflexivity|].
  destruct (proj1 (send_shows_question_before_asking " What is the answer? " eq_refl)
              (Sample.dashboard " What is the answer? " false false Dashboard.chat [])
              eq_refl eq_refl)
    as (w1 & k & Hrun & _ & Hi & Hp).
  exists w1, k. split; [exact Hrun|]. split; [exact Hi | exact Hp].
Defined.


(** ** The refresh of the collection *)

Section RefreshExtras.
Context `{Platform}.
Implicit Types (w : World Dashboard.State) (o : FetchOutcome).


(** What a refresh leaves as it was, and what it adds. *)
Lemma loadDocuments_frame w o :
  exists w' extra,
    Loop.run (Dashboard.loadDocuments w) [o] = Some (Return tt, w')
    /\ Dashboard.isUploading (comp w') = Dashboard.isUploading (comp w)
    /\ Dashboard.processingStage (comp w') = Dashboard.processingStage (comp w)
    /\ Dashboard.uploadProgress (comp w') = Dashboard.uploadProgress (comp w)
    /\ Dashboard.messages (comp w') = Dashboard.messages (comp w) ++ extra
    /\ now w' = now w
    /\ (Api.accepted o = None ->
        Dashboard.documents (comp w') = Dashboard.documents (comp w)
        /\ extra = [refreshFailed (now w)]).
Proof.
  unfold Dashboard.loadDocuments, Api.listDocuments, Api.accepted, Task.tryCatch, Task.bind,
    Api.getAuthToken, Task.getProp, refreshFailed.
  destruct o as [e | r]; branches.
  all: try (destruct (Js.prop _ "documents") as [| | | | |items|] eqn:Hd; cbn).
  all: try (destruct (mapDocuments_finished items w) as [res ->]; destruct res; cbn).
  all: first
    [ exists w, []; split; [reflexivity|]; rewrite app_nil_r; done
    | eexists _, []; split; [reflexivity|]; cbn; rewrite app_nil_r; done
    | eexists _, [_]; split; [reflexivity|]; cbn; repeat split; done ].
Qed.

Lemma loadDocuments_store w o :
  exists w',
    Loop.run (Dashboard.loadDocuments w) [o] = Some (Return tt, w')
    /\ localStorage w' = localStorage w.
Proof.
  unfold Dashboard.loadDocuments, Api.listDocuments, Task.tryCatch, Task.bind,
    Api.getAuthToken, Task.getProp.
  destruct o as [e | r]; branches.
  all: try (destruct (Js.prop _ "documents") as [| | | | |items|] eqn:Hd; cbn).
  all: try (destruct (mapDocuments_finished items w) as [res ->]; destruct res; cbn).
  all: eexists; split; [reflexivity|]; done.
Qed.


End RefreshExtras.

(** ** An upload that goes out *)

Lemma run_catch_return `{Platform} {S A : Type} (s : Step S A) (h : JsError -> Task S A)
    (net : list FetchOutcome) (a : A) (w' : World S) :
  Loop.run s net = Some (Return a, w') ->
  Loop.run (Task.catchStep s h) net = Some (Return a, w').
Proof.
  revert net. induction s as [r w | req w k IH | ms w k IH]; intros net; cbn.
  - destruct r; [done | discriminate].
  - destruct net as [|o net]; [done | apply IH].
  - apply IH.
Qed.


(** The refresh at the end of the [try] block of an upload. *)
Ltac refreshed :=
  match goal with
  | |- context [Loop.run (Task.catchStep (Dashboard.loadDocuments ?w) ?h) [?o]] =>
      let w' := fresh "w'" in
      let extra := fresh "extra" in
      let Hrun := fresh "Hrun" in
      destruct (loadDocuments_frame w o)
        as (w' & extra & Hrun & Hu & Hs & Hp & Hm & Hn & Hfail);
      rewrite (run_catch_return _ h _ _ _ Hrun);
      cbn in Hu, Hs, Hp, Hm, Hn
  end.

Section UploadExtras.
Context `{Platform}.

(** X11. An upload that passed validation always ends, once the upload call
    and, in the Dashboard, the refresh it starts are answered, and whatever
    the answers are: the upload flag is false again and the timeline has
    grown.  The Dashboard has then cleared the processing stage, set the
    progress to 100 and spent 3500 ms on its three timers, also when the
    upload failed; the Chat sets no timer and appends exactly one assistant
    message. *)
Theorem upload_always_ends (file : File) (others : list File) (o refresh : FetchOutcome) :
  isValid file ->
  (forall w : World Dashboard.State,
     exists w' new,
       Loop.run (Dashboard.handleFileUpload (Some (file :: others)) w) [o; refresh]
       = Some (Return tt, w')
       /\ Dashboard.isUploading (comp w') = false
       /\ Dashboard.processingStage (comp w') = ""
       /\ Dashboard.uploadProgress (comp w') = 100
       /\ now w' = now w + 3500
       /\ Dashboard.messages (comp w') = Dashboard.messages (comp w) ++ new
       /\ new <> [])
  /\ (forall w : World Chat.State,
       exists (w' : World Chat.State) m,
         Loop.run (Chat.handleFileUpload (Some (file :: others)) w) [o] = Some (Return tt, w')
         /\ Chat.isUploading (comp w') = false
         /\ now w' = now w
         /\ Chat.messages (comp w') = Chat.messages (comp w) ++ [m]
         /\ Chat.role m = assistant).
Proof.
  intros [E1 E2]%valid_cases. split; intros w.
  - unfold Dashboard.handleFileUpload. rewrite E1, E2.
    unfold Dashboard.handleFileUpload_try, Api.uploadFile, Task.tryCatch, Task.bind,
      Api.getAuthToken, Task.getProp, Dashboard.includesError.
    destruct o as [e | r]; branches; try refreshed.
    all: try (destruct (Js.prop _ "status") eqn:Hst; cbn in *; try discriminate; branches;
              try refreshed).
    all: eexists _, _; (split; [reflexivity|]); rewrite ?Hu, ?Hs, ?Hp, ?Hn, ?Hm; cbn;
      rewrite <- ?app_assoc; cbn; (split; [done|]); (split; [done|]); (split; [done|]);
      (split; [lia|]); (split; [reflexivity | done]).
  - unfold Chat.handleFileUpload. change Chat.MAX_UPLOAD_SIZE with Dashboard.MAX_UPLOAD_SIZE.
    rewrite E1, E2.
    unfold Chat.handleFileUpload_try, Api.uploadFile, Task.tryCatch, Task.bind,
      Api.getAuthToken, Task.getProp, Chat.includesError.
    destruct o as [e | r]; branches.
    all: try (destruct (Js.prop _ "status") eqn:Hst; cbn in *; try discriminate; branches).
    all: eexists _, _; (split; [reflexivity|]); cbn; done.
Qed.


End UploadExtras.

Lemma report_pdf_valid : isValid Sample.report_pdf.
Proof. split; [by exists "report", ".pdf" | vm_compute; discriminate]. Qed.

Lemma upload_always_ends_witness :
  isValid Sample.report_pdf
  /\ exists w' new,
       Loop.run
         (Dashboard.handleFileUpload (Some [Sample.report_pdf])
            (Sample.dashboard "" false false Dashboard.chat []))
         [Sample.unauthorized; Sample.offline]
       = Some (Return tt, w')
       /\ Dashboard.isUploading (comp w') = false
       /\ Dashboard.processingStage (comp w') = ""
       /\ now w' = now (Sample.dashboard "" false false Dashboard.chat []) + 3500
       /\ Dashboard.messages (comp w')
          = Dashboard.messages (comp (Sample.dashboard "" false false Dashboard.chat [])) ++ new.
Proof.
  split; [exact report_pdf_valid|].
  destruct (proj1 (upload_always_ends Sample.report_pdf [] Sample.unauthorized Sample.offline
                     report_pdf_valid)
              (Sample.dashboard "" false false Dashboard.chat []))
    as (w' & new & Hrun & Hu & Hs & _ & Hn & Hm & _).
  exists w', new. split; [exact Hrun|]. split; [exact Hu|]. split; [exact Hs|].
  split; [exact Hn | exact Hm].
Defined.


(** ** Deleting a document, and the first render *)

Section DashboardExtras.
Context `{Platform}.
Implicit Types (w : World Dashboard.State) (o : FetchOutcome).


(** X14. The first render writes the three settings it loaded back to the
    store, each under its own key, whatever the store held and whatever the
    answer to the listing it asks for.  The model and the theme it wrote load
    again as the same values, and the model is never empty: a store that
    holds an empty model, or a theme other than "true" or "false", is
    repaired by the first render. *)
Theorem mount_persists_what_it_loaded w o :
  let loaded := Dashboard.initialState (localStorage w) in
  exists w',
    Loop.run (Dashboard.mount w) [o] = Some (Return tt, w')
    /\ localStorage w'
       = <[Dashboard.KEY_DARK_MODE := Dashboard.Boolean_toString (Dashboard.darkMode loaded)]>
           (<[Dashboard.KEY_MODEL := Dashboard.model loaded]>
              (<[Dashboard.KEY_TEMPERATURE := Number_toString (Dashboard.temperature loaded)]>
                 (localStorage w)))
    /\ Dashboard.model (Dashboard.initialState (localStorage w')) = Dashboard.model loaded
    /\ Dashboard.darkMode (Dashboard.initialState (localStorage w')) = Dashboard.darkMode loaded
    /\ Dashboard.model loaded <> "".
Proof.
  intros loaded.
  assert (Hmodel : Dashboard.model loaded <> "").
  { unfold loaded. cbn. destruct (localStorage w !! Dashboard.KEY_MODEL) as [[|c saved]|]; done. }
  unfold Dashboard.mount, Task.bind, Task.getWorld, Task.setState, Dashboard.saveTemperature,
    Dashboard.saveModel, Dashboard.saveDarkMode, Task.getState, Dashboard.localStorage_setItem.
  cbn [Task.bind Task.bindStep comp commits authToken localStorage now console].
  match goal with
  | |- context [Dashboard.loadDocuments ?W] =>
      destruct (loadDocuments_store W o) as (w' & -> & Hstore)
  end.
  exists w'. rewrite Hstore. cbn [localStorage]. fold loaded. split; [done|]. split; [done|].
  pose proof (load_after_darkMode
                (<[Dashboard.KEY_MODEL := Dashboard.model loaded]>
                   (<[Dashboard.KEY_TEMPERATURE := Number_toString (Dashboard.temperature loaded)]>
                      (localStorage w)))
                (Dashboard.darkMode loaded)) as (Hd & _ & Hm).
  pose proof (load_after_model
                (<[Dashboard.KEY_TEMPERATURE := Number_toString (Dashboard.temperature loaded)]>
                   (localStorage w))
                (Dashboard.model loaded) Hmodel) as (Hm' & _).
  cbv zeta in Hd, Hm, Hm'. rewrite Hm, Hm', Hd. done.
Qed.

End DashboardExtras.

(** ** The login page *)

Section LoginExtras.
Context `{Platform}.
Implicit Types (w : World LoginPage.State) (o : FetchOutcome).


(** X16. The page names the cause of a failed login: that the server could
    not be reached when the fetch failed in transport, that the credentials
    are invalid when the answer is 401, that the server failed when the
    status is 500 or above. *)
Theorem login_page_names_the_cause w o :
  (exists e, o = Rejected e /\ Api.isFetchTypeError e = true)
  \/ (exists r, o = Responded r /\ (status r = 401 \/ 500 <= status r)) ->
  (LoginPage.error <$> Loop.state (LoginPage.handleLogin w) [o])
  = Some (JStr (match o with
                | Rejected _ => LoginPage.UNABLE_TO_CONNECT
                | Responded r =>
                    if status r =? 401 then LoginPage.INVALID_CREDENTIALS
                    else "Server error. Please try again later."
                end)).
Proof.
  unfold Loop.state, LoginPage.handleLogin, LoginPage.handleLogin_try, Api.login,
    Task.tryFinally, Task.tryCatch, Task.bind, Task.getProp, Task.lift, Api.setAuthToken,
    Api.loginFailure, LoginPage.includes.
  intros [(e & -> & He) | (r & -> & Hs)].
  - cbn. rewrite He. reflexivity.
  - assert (ok r = false) as Hok by (unfold ok; destruct Hs; lia).
    cbn. rewrite Hok. cbn.
    destruct (status r =? 401) eqn:E; [reflexivity|].
    assert ((500 <=? status r) = true) as -> by lia.
    reflexivity.
Qed.

(** X17. An answer that is ok, reports no success and carries no message
    text makes the handler fault on [result.message.includes]; the fault is
    caught, the page shows the text of its [catch], and the form is no
    longer loading. *)
Theorem login_reply_without_message w o (v : JsValue) :
  Api.accepted o = Some v ->
  Js.nullish v = false ->
  Js.truthy (Js.prop v "success") = false ->
  hasIncludes (Js.prop v "message") = false ->
  (LoginPage.error <$> Loop.state (LoginPage.handleLogin w) [o])
  = Some (JStr LoginPage.UNEXPECTED)
  /\ (LoginPage.isLoading <$> Loop.state (LoginPage.handleLogin w) [o]) = Some false.
Proof.
  unfold Api.accepted, Loop.state, LoginPage.handleLogin, LoginPage.handleLogin_try, Api.login,
    Task.tryFinally, Task.tryCatch, Task.bind, Task.getProp, Task.lift, Api.setAuthToken,
    Api.loginFailure, LoginPage.includes.
  destruct o as [e | r]; [done|].
  destruct (ok r) eqn:Hok; [|done].
  destruct (json r) as [a|] eqn:Hj; [|done].
  intros [= ->] Hn Hs Hm. cbn. rewrite Hok, Hj.
  destruct v; try discriminate; cbn in *; rewrite ?Hs; cbn; rewrite ?Hs; cbn.
  all: match goal with
       | |- context [Js.assoc "message" ?f] => destruct (Js.assoc "message" f)
       | _ => idtac
       end; try discriminate; done.
Qed.

End LoginExtras.

Lemma login_page_names_the_cause_witness :
  ((exists e, Sample.unauthorized = Rejected e /\ Api.isFetchTypeError e = true)
   \/ (exists r, Sample.unauthorized = Responded r /\ (status r = 401 \/ 500 <= status r)))
  /\ (LoginPage.error
        <$> Loop.state
              (LoginPage.handleLogin (H := Reference.platform)
                 (Sample.loginPage "admin" "guess"))
              [Sample.unauthorized])
     = Some (JStr LoginPage.INVALID_CREDENTIALS).
Proof.
  assert (Hcause :
    (exists e, Sample.unauthorized = Rejected e /\ Api.isFetchTypeError e = true)
    \/ (exists r, Sample.unauthorized = Responded r /\ (status r = 401 \/ 500 <= status r))).
  { right. eexists. split; [reflexivity|]. left. reflexivity. }
  split; [exact Hcause|].
  exact (login_page_names_the_cause (H := Reference.platform)
           (Sample.loginPage "admin" "guess") Sample.unauthorized Hcause).
Defined.

Lemma login_reply_without_message_witness :
  (Api.accepted Sample.declined = Some (JObj [("success", JBool false)])
   /\ Js.nullish (JObj [("success", JBool false)]) = false
   /\ Js.truthy (Js.prop (JObj [("success", JBool false)]) "success") = false
   /\ hasIncludes (Js.prop (JObj [("success", JBool false)]) "message") = false)
  /\ (LoginPage.error
        <$> Loop.state
              (LoginPage.handleLogin (H := Reference.platform)
                 (Sample.loginPage "admin" "guess"))
              [Sample.declined])
     = Some (JStr LoginPage.UNEXPECTED).
Proof.
  split; [by repeat split|].
  exact (proj1 (login_reply_without_message (H := Reference.platform)
                  (Sample.loginPage "admin" "guess") Sample.declined
                  (JObj [("success", JBool false)]) eq_refl eq_refl eq_refl eq_refl)).
Defined.

(** ** Sessions: what holds under every interleaving *)

Section Respect.
Context `{Platform} {S : Type} (R : S -> S -> Prop).
Hypothesis R_refl : forall st, R st st.
Hypothesis R_trans : forall a b c, R a b -> R b c -> R a c.

Lemma respects_earlier {A} (st0 st1 : S) (s : Step S A) :
  R st0 st1 -> respects R st1 s -> respects R st0 s.
Proof. intros H01 Hs. destruct Hs; constructor; eauto. Qed.

Lemma respects_bindStep {A B} (st : S) (s : Step S A) (f : A -> Task S B) :
  respects R st s -> (forall a, respectful R (f a)) -> respects R st (Task.bindStep s f).
Proof.
  intros Hs Hf. induction Hs as [st r w Hw | st req w k Hw _ IH | st ms w k Hw _ IH]; cbn.
  - destruct r as [a | e].
    + apply respects_earlier with (comp w); [exact Hw | apply Hf].
    + by constructor.
  - constructor; [exact Hw | exact IH].
  - constructor; [exact Hw | exact IH].
Qed.

Lemma respects_catchStep {A} (st : S) (s : Step S A) (h : JsError -> Task S A) :
  respects R st s -> (forall e, respectful R (h e)) -> respects R st (Task.catchStep s h).
Proof.
  intros Hs Hh. induction Hs as [st r w Hw | st req w k Hw _ IH | st ms w k Hw _ IH]; cbn.
  - destruct r as [a | e].
    + by constructor.
    + apply respects_earlier with (comp w); [exact Hw | apply Hh].
  - constructor; [exact Hw | exact IH].
  - constructor; [exact Hw | exact IH].
Qed.

Lemma respects_finallyStep {A} (st : S) (s : Step S A) (f : Task S unit) :
  respects R st s -> respectful R f -> respects R st (Task.finallyStep s f).
Proof.
  intros Hs Hf. induction Hs as [st r w Hw | st req w k Hw _ IH | st ms w k Hw _ IH]; cbn.
  - apply respects_earlier with (comp w); [exact Hw|].
    apply respects_bindStep; [apply Hf|].
    intros _ w'. constructor. apply R_refl.
  - constructor; [exact Hw | exact IH].
  - constructor; [exact Hw | exact IH].
Qed.

Lemma respectful_ret {A} (a : A) : respectful R (Task.ret a).
Proof. intros w. constructor. apply R_refl. Qed.

Lemma respectful_throw {A} (e : JsError) : respectful R (Task.throw (A := A) e).
Proof. intros w. constructor. apply R_refl. Qed.

Lemma respectful_bind {A B} (m : Task S A) (f : A -> Task S B) :
  respectful R m -> (forall a, respectful R (f a)) -> respectful R (Task.bind m f).
Proof. intros Hm Hf w. apply respects_bindStep; [apply Hm | exact Hf]. Qed.

Lemma respectful_tryCatch {A} (m : Task S A) (h : JsError -> Task S A) :
  respectful R m -> (forall e, respectful R (h e)) -> respectful R (Task.tryCatch m h).
Proof. intros Hm Hh w. apply respects_catchStep; [apply Hm | exact Hh]. Qed.

Lemma respectful_tryFinally {A} (m : Task S A) (f : Task S unit) :
  respectful R m -> respectful R f -> respectful R (Task.tryFinally m f).
Proof. intros Hm Hf w. apply respects_finallyStep; [apply Hm | exact Hf]. Qed.

Lemma respectful_lift {A} (o : Outcome A) : respectful R (Task.lift o).
Proof. intros w. constructor. apply R_refl. Qed.

Lemma respectful_getWorld : respectful R Task.getWorld.
Proof. intros w. constructor. apply R_refl. Qed.

Lemma respectful_getState : respectful R Task.getState.
Proof. intros w. constructor. apply R_refl. Qed.

Lemma respectful_Date_now : respectful R Task.Date_now.
Proof. intros w. constructor. apply R_refl. Qed.

Lemma respectful_console_error (label : string) : respectful R (Task.console_error label).
Proof. intros w. constructor. apply R_refl. Qed.

Lemma respectful_getAuthToken : respectful R Api.getAuthToken.
Proof. intros w. constructor. apply R_refl. Qed.

Lemma respectful_setAuthToken (token : option string) : respectful R (Api.setAuthToken token).
Proof. intros w. constructor. apply R_refl. Qed.

Lemma respectful_getProp (v : JsValue) (k : string) : respectful R (Task.getProp v k).
Proof.
  unfold Task.getProp. destruct (Js.nullish v); [apply respectful_throw | apply respectful_ret].
Qed.

Lemma respectful_fetch (req : Request) : respectful R (Task.fetch req).
Proof.
  intros w. constructor; [apply R_refl|].
  intros [e | r] w2; constructor; apply R_refl.
Qed.

Lemma respectful_sleep (ms : Z) : respectful R (Task.sleep ms).
Proof.
  intros w. constructor; [apply R_refl|].
  intros w2; constructor; apply R_refl.
Qed.

Lemma respectful_setState (f : S -> S) :
  (forall st, R st (f st)) -> respectful R (Task.setState f).
Proof. intros Hf w. constructor. apply Hf. Qed.

Lemma respectful_mutate (f : S -> S) :
  (forall st, R st (f st)) -> respectful R (Task.mutate f).
Proof. intros Hf w. constructor. apply Hf. Qed.

End Respect.

(** One step in showing a task respectful, the relation being reflexive by
    [Hrefl] and transitive by [Htrans]: through a combinator, by a primitive,
    or by cases on the test the task branches on. *)
Ltac respectful_step Hrefl Htrans :=
  first
    [ apply (respectful_ret _ Hrefl) | apply (respectful_throw _ Hrefl)
    | apply (respectful_lift _ Hrefl) | apply (respectful_getWorld _ Hrefl)
    | apply (respectful_getState _ Hrefl) | apply (respectful_Date_now _ Hrefl)
    | apply (respectful_console_error _ Hrefl) | apply (respectful_getAuthToken _ Hrefl)
    | apply (respectful_setAuthToken _ Hrefl) | apply (respectful_getProp _ Hrefl)
    | apply (respectful_fetch _ Hrefl) | apply (respectful_sleep _ Hrefl)
    | apply (respectful_bind _ Htrans); [|intros ?]
    | apply (respectful_tryCatch _ Htrans); [|intros ?]
    | apply (respectful_tryFinally _ Hrefl Htrans)
    | match goal with
      | |- respectful _ (if ?b then _ else _) => destruct b
      | |- respectful _ (match ?x with _ => _ end) => destruct x
      end ].

Section GatewayRespect.
Context `{Platform} {S : Type} (R : S -> S -> Prop).
Hypothesis R_refl : forall st, R st st.
Hypothesis R_trans : forall a b c, R a b -> R b c -> R a c.

Lemma respectful_sendMessage (question : string) (temp : number) :
  respectful R (Api.sendMessage question temp).
Proof. unfold Api.sendMessage, Api.readJson. repeat respectful_step R_refl R_trans. Qed.

Lemma respectful_uploadFile (file : File) : respectful R (Api.uploadFile file).
Proof. unfold Api.uploadFile, Api.readJson. repeat respectful_step R_refl R_trans. Qed.

Lemma respectful_listDocuments : respectful R Api.listDocuments.
Proof. unfold Api.listDocuments, Api.readJson. repeat respectful_step R_refl R_trans. Qed.

Lemma respectful_deleteDocument (id : string) : respectful R (Api.deleteDocument id).
Proof. unfold Api.deleteDocument, Api.readJson. repeat respectful_step R_refl R_trans. Qed.

End GatewayRespect.

Lemma extends_refl {S M : Type} (timeline : S -> list M) (st : S) : extends timeline st st.
Proof. exists []. by rewrite app_nil_r. Qed.

Lemma extends_same {S M : Type} (timeline : S -> list M) (st st' : S) :
  timeline st' = timeline st -> extends timeline st st'.
Proof. intros E. exists []. by rewrite E, app_nil_r. Qed.

Lemma extends_trans {S M : Type} (timeline : S -> list M) (a b c : S) :
  extends timeline a b -> extends timeline b c -> extends timeline a c.
Proof. intros [x Hx] [y Hy]. exists (x ++ y). by rewrite Hy, Hx, app_assoc. Qed.

Lemma notRaised_refl {S : Type} (flag : S -> bool) (st : S) : notRaised flag st st.
Proof. by intros ?. Qed.

Lemma notRaised_same {S : Type} (flag : S -> bool) (st st' : S) :
  flag st' = flag st -> notRaised flag st st'.
Proof. intros E. unfold notRaised. by rewrite E. Qed.

Lemma notRaised_trans {S : Type} (flag : S -> bool) (a b c : S) :
  notRaised flag a b -> notRaised flag b c -> notRaised flag a c.
Proof. unfold notRaised. auto. Qed.

Lemma both_refl {S : Type} (R1 R2 : S -> S -> Prop) :
  (forall st, R1 st st) -> (forall st, R2 st st) -> forall st, both R1 R2 st st.
Proof. by split. Qed.

Lemma both_trans {S : Type} (R1 R2 : S -> S -> Prop) :
  (forall a b c, R1 a b -> R1 b c -> R1 a c) ->
  (forall a b c, R2 a b -> R2 b c -> R2 a c) ->
  forall a b c, both R1 R2 a b -> both R1 R2 b c -> both R1 R2 a c.
Proof. intros H1 H2 a b c [? ?] [? ?]. split; eauto. Qed.

Lemma respects_weaken `{Platform} {S A : Type} (R R' : S -> S -> Prop) (st : S)
    (s : Step S A) :
  (forall a b, R a b -> R' a b) -> respects R st s -> respects R' st s.
Proof. intros Hsub Hs. induction Hs; constructor; auto. Qed.

Lemma respectful_weaken `{Platform} {S A : Type} (R R' : S -> S -> Prop) (m : Task S A) :
  (forall a b, R a b -> R' a b) -> respectful R m -> respectful R' m.
Proof. intros Hsub Hm w. by apply respects_weaken with R. Qed.

Lemma calm_refl {S M : Type} (timeline : S -> list M) (answering uploading : S -> bool)
    (st : S) :
  calm timeline answering uploading st st.
Proof.
  apply both_refl; [apply extends_refl | apply both_refl; apply notRaised_refl].
Qed.

Lemma calm_trans {S M : Type} (timeline : S -> list M) (answering uploading : S -> bool)
    (a b c : S) :
  calm timeline answering uploading a b -> calm timeline answering uploading b c ->
  calm timeline answering uploading a c.
Proof.
  apply both_trans; [apply extends_trans | apply both_trans; apply notRaised_trans].
Qed.

(** ** What the handlers of the Dashboard change *)

Section DashboardFootprint.
Context `{Platform}.

Lemma dashboardCalm_refl st : dashboardCalm st st.
Proof. apply calm_refl. Qed.

Lemma dashboardCalm_trans a b c : dashboardCalm a b -> dashboardCalm b c -> dashboardCalm a c.
Proof. apply calm_trans. Qed.

(** A setter that appends to the messages, or lowers a flag, or touches
    neither. *)
Ltac calm_setter :=
  intros ?; unfold dashboardCalm, calm, both; repeat split;
  first [ apply extends_same; reflexivity
        | by eexists [_]
        | apply notRaised_same; reflexivity
        | intros Hraised; discriminate Hraised ].

Ltac calm_step :=
  first
    [ respectful_step dashboardCalm_refl dashboardCalm_trans
    | apply respectful_sendMessage; [apply dashboardCalm_refl | apply dashboardCalm_trans]
    | apply respectful_uploadFile; [apply dashboardCalm_refl | apply dashboardCalm_trans]
    | apply respectful_listDocuments; [apply dashboardCalm_refl | apply dashboardCalm_trans]
    | apply respectful_deleteDocument; [apply dashboardCalm_refl | apply dashboardCalm_trans]
    | apply respectful_setState; calm_setter
    | apply respectful_mutate; calm_setter ].

Lemma calm_mapDocuments (items : list JsValue) : respectful dashboardCalm (Dashboard.mapDocuments items).
Proof.
  induction items as [|doc rest IH]; cbn; [calm_step|].
  unfold Dashboard.toDocument. repeat first [exact IH | calm_step].
Qed.

Lemma calm_loadDocuments : respectful dashboardCalm Dashboard.loadDocuments.
Proof.
  unfold Dashboard.loadDocuments, Dashboard.setDocuments, Dashboard.appendMessage,
    Dashboard.setMessages.
  repeat first [apply calm_mapDocuments | calm_step].
Qed.

(** The send from its [try] on, and the upload from its [try] on. *)
Lemma calm_send_try (render : Dashboard.State) :
  respectful dashboardCalm
    (Task.tryFinally
       (Task.tryCatch
          (Dashboard.sendMessageToBackend_try render)
          (fun error =>
             Task.console_error "Error:" ;;;
             t' <- Task.Date_now ;;
             Dashboard.appendMessage
               (MessageItem.mk (JsString.ofZ (t' + 1)) assistant
                  (Js.or (JStr (message error))
                     (JStr "Error connecting to backend. Please try again."))
                  (DateAt t'))))
       (Dashboard.setIsProcessing (fun _ => false) ;;;
        Dashboard.setProcessingStage (fun _ => ""))).
Proof.
  unfold Dashboard.sendMessageToBackend_try, Dashboard.setIsProcessing,
    Dashboard.setProcessingStage, Dashboard.appendMessage, Dashboard.setMessages.
  repeat calm_step.
Qed.

Lemma calm_upload_try (file : File) :
  respectful dashboardCalm
    (Task.tryCatch
       (Dashboard.handleFileUpload_try file)
       (fun error =>
          Dashboard.setIsUploading (fun _ => false) ;;;
          Dashboard.setProcessingStage (fun _ => "") ;;;
          t <- Task.Date_now ;;
          Dashboard.appendMessage
            (MessageItem.mk (JsString.ofZ t) assistant
               (Js.or (JStr (message error)) (JStr "Error uploading file. Please try again."))
               (DateAt t)))).
Proof.
  unfold Dashboard.handleFileUpload_try, Dashboard.includesError, Dashboard.setIsUploading,
    Dashboard.setUploadProgress, Dashboard.setProcessingStage, Dashboard.setDocuments,
    Dashboard.appendMessage, Dashboard.setMessages.
  cbv zeta. repeat first [apply calm_loadDocuments | calm_step].
Qed.

Lemma calm_handleDeleteDocument (id : string) :
  respectful dashboardCalm (Dashboard.handleDeleteDocument id).
Proof.
  unfold Dashboard.handleDeleteDocument, Dashboard.setDocuments, Dashboard.appendMessage,
    Dashboard.setMessages.
  repeat calm_step.
Qed.

Lemma calm_settings (value : string) (checked : bool) (tab : Dashboard.Tab) :
  respectful dashboardCalm (Dashboard.onTemperatureChange value)
  /\ respectful dashboardCalm (Dashboard.onModelChange value)
  /\ respectful dashboardCalm (Dashboard.onDarkModeChange checked)
  /\ respectful dashboardCalm (Dashboard.selectTab tab).
Proof.
  assert (Hw : forall k v, respectful dashboardCalm (Dashboard.localStorage_setItem k v)).
  { intros k v w. constructor. apply dashboardCalm_refl. }
  assert (He : forall before, respectful dashboardCalm (Dashboard.runEffects before)).
  { intros before.
    unfold Dashboard.runEffects, Dashboard.saveTemperature, Dashboard.saveModel,
      Dashboard.saveDarkMode.
    repeat first [apply Hw | calm_step]. }
  unfold Dashboard.onTemperatureChange, Dashboard.onModelChange, Dashboard.onDarkModeChange,
    Dashboard.selectTab, Dashboard.setTemperature, Dashboard.setModel, Dashboard.setDarkMode,
    Dashboard.setActiveTab, Dashboard.typeChunkSize, Dashboard.typeChunkOverlap,
    Dashboard.typeMaxTokens.
  repeat split; repeat first [apply He | calm_step].
Qed.

End DashboardFootprint.

Section SessionFacts.
Context `{Platform} {S : Type} (R : S -> S -> Prop) (action : Task S unit -> Prop).
Hypothesis R_refl : forall st, R st st.
Hypothesis R_trans : forall a b c, R a b -> R b c -> R a c.
Hypothesis action_respectful : forall h, action h -> respectful R h.

Lemma settle_respects (st : S) (s : Step S unit) (others : list Loop.Suspended)
    (errors : list JsError) :
  respects R st s ->
  Forall (parked R) others ->
  R st (comp (Loop.world (Loop.settle s others errors)))
  /\ Forall (parked R) (Loop.pending (Loop.settle s others errors)).
Proof.
  intros Hs Ho. destruct Hs as [st r w Hw | st req w k Hw Hk | st ms w k Hw Hk]; cbn.
  - destruct r; cbn; by split.
  - split; [exact Hw|]. apply Forall_app. split; [exact Ho|]. by constructor.
  - split; [exact Hw|]. apply Forall_app. split; [exact Ho|]. by constructor.
Qed.

Lemma reaches_respects (l l' : Loop.t) :
  reaches action l l' ->
  Forall (parked R) (Loop.pending l) ->
  R (comp (Loop.world l)) (comp (Loop.world l'))
  /\ Forall (parked R) (Loop.pending l').
Proof.
  intros Hreach Hl.
  induction Hreach as [| l' h _ [IHw IHp] Hh | l' i o _ [IHw IHp] | l' i _ [IHw IHp]
                       | l' ms _ [IHw IHp]].
  - split; [apply R_refl | exact Hl].
  - destruct (settle_respects (comp (Loop.world l')) (h (Loop.world l')) (Loop.pending l')
                (Loop.unhandled l') (action_respectful h Hh (Loop.world l')) IHp) as [Hw Hp].
    split; [by apply R_trans with (comp (Loop.world l')) | exact Hp].
  - unfold Loop.deliver. destruct (Loop.pending l' !! i) as [[req k | ms k]|] eqn:Hi; try done.
    assert (Hk : parked R (Loop.OnFetch req k)).
    { eapply Forall_lookup_1; [exact IHp | exact Hi]. }
    destruct (settle_respects (comp (Loop.world l')) (k o (Loop.world l'))
                (delete i (Loop.pending l')) (Loop.unhandled l') (Hk o (Loop.world l'))
                (Forall_delete _ _ i IHp))
      as [Hw Hp].
    split; [by apply R_trans with (comp (Loop.world l')) | exact Hp].
  - unfold Loop.fire. destruct (Loop.pending l' !! i) as [[req k | ms k]|] eqn:Hi; try done.
    assert (Hk : parked R (Loop.OnTimer ms k)).
    { eapply Forall_lookup_1; [exact IHp | exact Hi]. }
    destruct (settle_respects (comp (Loop.world l')) (k (Loop.world l'))
                (delete i (Loop.pending l')) (Loop.unhandled l') (Hk (Loop.world l'))
                (Forall_delete _ _ i IHp))
      as [Hw Hp].
    split; [by apply R_trans with (comp (Loop.world l')) | exact Hp].
  - by split.
Qed.

End SessionFacts.



(** ** A flag that is raised is lowered again *)

Section FlagFacts.
Context `{Platform} {S : Type} (flag : S -> bool) (action : Task S unit -> Prop).
Hypothesis action_answerable : forall h, action h -> answerable flag h.

Lemma standing_respects (w : World S) (s : Step S unit) :
  respects (notRaised flag) (comp w) s -> standing flag w s.
Proof. intros Hs. inversion Hs; subst; cbn; auto. Qed.

Lemma standing_discharged (st' : S) (w : World S) (s : Step S unit) :
  respects (notRaised flag) st' s -> discharges flag s -> standing flag w s.
Proof.
  intros Hs Hd. inversion Hs; subst; cbn.
  - inversion Hd; subst. intros Hup. congruence.
  - split; [assumption|]. inversion Hd; subst.
    + left. intros Hup. congruence.
    + right. assumption.
  - split; [assumption|]. inversion Hd; subst.
    + left. intros Hup. congruence.
    + right. assumption.
Qed.

Lemma respectful_answerable (h : Task S unit) :
  respectful (notRaised flag) h -> answerable flag h.
Proof. intros Hh w. apply standing_respects, Hh. Qed.

Lemma Exists_delete_or {A} (P : A -> Prop) (l : list A) (i : nat) (p : A) :
  l !! i = Some p -> Exists P l -> P p \/ Exists P (delete i l).
Proof.
  revert i. induction l as [|x l IH]; intros i Hi Hex; [done|].
  destruct i as [|i]; cbn in *.
  - injection Hi as ->. inversion Hex; subst; auto.
  - inversion Hex; subst.
    + right. by left.
    + destruct (IH i Hi) as [Hp | Hrest]; [assumption | by left | right; by right].
Qed.

Lemma settle_called (w : World S) (s : Step S unit) (others : list Loop.Suspended)
    (errors : list JsError) :
  standing flag w s ->
  Forall (parked (notRaised flag)) others ->
  (flag (comp w) = true -> Exists (owes flag) others) ->
  settled flag (Loop.settle s others errors).
Proof.
  intros Hs Ho Hdebt. destruct s as [r w' | req w' k | ms w' k]; cbn in Hs.
  - destruct r; (split; [exact Ho | cbn; auto]).
  - destruct Hs as [Hk Hw]. split; cbn.
    + apply Forall_app. split; [exact Ho | by constructor].
    + intros Hup. apply Exists_app. destruct Hw as [Hw | Hw]; [left; auto | right; by left].
  - destruct Hs as [Hk Hw]. split; cbn.
    + apply Forall_app. split; [exact Ho | by constructor].
    + intros Hup. apply Exists_app. destruct Hw as [Hw | Hw]; [left; auto | right; by left].
Qed.

Lemma settle_resumed (w : World S) (s : Step S unit) (others : list Loop.Suspended)
    (errors : list JsError) :
  respects (notRaised flag) (comp w) s ->
  Forall (parked (notRaised flag)) others ->
  (flag (comp w) = true -> discharges flag s \/ Exists (owes flag) others) ->
  settled flag (Loop.settle s others errors).
Proof.
  intros Hs Ho Hdebt. inversion Hs as [st r w' Hw | st req w' k Hw Hk | st ms w' k Hw Hk]; subst.
  - assert (Hup : flag (comp w') = true -> Exists (owes flag) others).
    { intros Hup. destruct (Hdebt (Hw Hup)) as [Hd | Hex]; [|exact Hex].
      inversion Hd; subst. congruence. }
    destruct r; by split.
  - split; cbn.
    + apply Forall_app. split; [exact Ho | by constructor].
    + intros Hup. apply Exists_app. destruct (Hdebt (Hw Hup)) as [Hd | Hex]; [|by left].
      inversion Hd; subst; [congruence|]. right. by left.
  - split; cbn.
    + apply Forall_app. split; [exact Ho | by constructor].
    + intros Hup. apply Exists_app. destruct (Hdebt (Hw Hup)) as [Hd | Hex]; [|by left].
      inversion Hd; subst; [congruence|]. right. by left.
Qed.

Lemma reaches_settled (l l' : Loop.t) :
  reaches action l l' -> settled flag l -> settled flag l'.
Proof.
  intros Hreach Hl.
  induction Hreach as [| l' h _ [IHp IHd] Hh | l' i o _ [IHp IHd] | l' i _ [IHp IHd]
                       | l' ms _ [IHp IHd]].
  - exact Hl.
  - apply settle_called with (Loop.world l'); [by apply action_answerable | exact IHp | exact IHd].
  - unfold Loop.deliver.
    destruct (Loop.pending l' !! i) as [[req k | ms k]|] eqn:Hi; try by split.
    assert (Hk : parked (notRaised flag) (Loop.OnFetch req k)).
    { eapply Forall_lookup_1; [exact IHp | exact Hi]. }
    apply settle_resumed with (Loop.world l'); [apply Hk | by apply Forall_delete|].
    intros Hup. destruct (Exists_delete_or _ _ _ _ Hi (IHd Hup)) as [Hp | Hex]; [left | by right].
    apply Hp.
  - unfold Loop.fire.
    destruct (Loop.pending l' !! i) as [[req k | ms k]|] eqn:Hi; try by split.
    assert (Hk : parked (notRaised flag) (Loop.OnTimer ms k)).
    { eapply Forall_lookup_1; [exact IHp | exact Hi]. }
    apply settle_resumed with (Loop.world l'); [apply Hk | by apply Forall_delete|].
    intros Hup. destruct (Exists_delete_or _ _ _ _ Hi (IHd Hup)) as [Hp | Hex]; [left | by right].
    apply Hp.
  - by split.
Qed.

Lemma settled_idle (l : Loop.t) :
  settled flag l -> Loop.pending l = [] -> flag (comp (Loop.world l)) = false.
Proof.
  intros [_ Hd] Hnone. destruct (flag (comp (Loop.world l))) eqn:Hup; [|done].
  specialize (Hd eq_refl). rewrite Hnone in Hd. inversion Hd.
Qed.

Lemma started_settled (w : World S) : flag (comp w) = false -> settled flag (Loop.start w).
Proof. intros Hw. split; cbn; [constructor | congruence]. Qed.

End FlagFacts.

(** ** The handlers of the Dashboard, one by one *)

Section DashboardHandlers.
Context `{Platform}.

Lemma dashboardCalm_extends a b : dashboardCalm a b -> extends Dashboard.messages a b.
Proof. by intros (? & ? & ?). Qed.

Lemma dashboardCalm_answering a b : dashboardCalm a b -> notRaised Dashboard.isProcessing a b.
Proof. by intros (? & ? & ?). Qed.

Lemma dashboardCalm_uploading a b : dashboardCalm a b -> notRaised Dashboard.isUploading a b.
Proof. by intros (? & ? & ?). Qed.

(** Every handler but the send and the upload raises no flag. *)
Lemma dashboard_action_cases (h : Task Dashboard.State unit) :
  DashboardAction h ->
  respectful dashboardCalm h
  \/ h = Dashboard.sendMessageToBackend
  \/ exists button files, h = Dashboard.pickFiles button files.
Proof.
  destruct 1; eauto; left.
  - unfold Dashboard.setInputValue. apply respectful_setState.
    intros ?; unfold dashboardCalm, calm, both; repeat split;
      first [apply extends_same; reflexivity | apply notRaised_same; reflexivity].
  - apply calm_handleDeleteDocument.
  - apply calm_loadDocuments.
  - exact (proj2 (proj2 (proj2 (calm_settings "" false tab)))).
  - exact (proj1 (calm_settings value false Dashboard.chat)).
  - exact (proj1 (proj2 (calm_settings value false Dashboard.chat))).
  - exact (proj1 (proj2 (proj2 (calm_settings "" checked Dashboard.chat)))).
  - apply respectful_mutate.
    intros ?; unfold dashboardCalm, calm, both; repeat split;
      first [apply extends_same; reflexivity | apply notRaised_same; reflexivity].
  - apply respectful_mutate.
    intros ?; unfold dashboardCalm, calm, both; repeat split;
      first [apply extends_same; reflexivity | apply notRaised_same; reflexivity].
  - apply respectful_mutate.
    intros ?; unfold dashboardCalm, calm, both; repeat split;
      first [apply extends_same; reflexivity | apply notRaised_same; reflexivity].
Qed.

(** A send raises the answering flag at most, and lowers it again. *)
Lemma dashboard_send_footprint :
  respectful (both (extends Dashboard.messages) (notRaised Dashboard.isUploading))
    Dashboard.sendMessageToBackend
  /\ answerable Dashboard.isProcessing Dashboard.sendMessageToBackend.
Proof.
  split.
  - assert (Hrefl : forall st,
              both (extends Dashboard.messages) (notRaised Dashboard.isUploading) st st).
    { apply both_refl; [apply extends_refl | apply notRaised_refl]. }
    assert (Htrans : forall a b c,
              both (extends Dashboard.messages) (notRaised Dashboard.isUploading) a b ->
              both (extends Dashboard.messages) (notRaised Dashboard.isUploading) b c ->
              both (extends Dashboard.messages) (notRaised Dashboard.isUploading) a c).
    { apply both_trans; [apply extends_trans | apply notRaised_trans]. }
    unfold Dashboard.sendMessageToBackend.
    repeat first
      [ match goal with
        | |- respectful _ (Task.tryFinally _ _) =>
            apply (respectful_weaken dashboardCalm);
            [ intros ? ? (? & ? & ?); by split | apply calm_send_try ]
        end
      | respectful_step Hrefl Htrans
      | unfold Dashboard.appendMessage, Dashboard.setMessages, Dashboard.setInputValue,
          Dashboard.setIsProcessing, Dashboard.setProcessingStage;
        apply respectful_setState; intros ?; split;
        first [apply extends_same; reflexivity | by eexists [_]
              | apply notRaised_same; reflexivity] ].
  - intros w. unfold Dashboard.sendMessageToBackend, Dashboard.appendMessage,
      Dashboard.setMessages, Dashboard.setInputValue, Dashboard.setIsProcessing at 1,
      Dashboard.setProcessingStage at 1.
    cbn [Task.bind Task.bindStep Task.getState].
    destruct (negb (JsString.truthy (JsString.trim (Dashboard.inputValue (comp w))))
              || Dashboard.isProcessing (comp w)); [cbn; apply notRaised_refl|].
    cbn [Task.bind Task.bindStep Task.Date_now Task.setState comp commits authToken
         localStorage now console].
    match goal with
    | |- standing _ _ (Task.tryFinally _ _ ?W) =>
        apply (standing_discharged Dashboard.isProcessing (comp W))
    end.
    + apply respects_weaken with dashboardCalm; [apply dashboardCalm_answering|].
      apply calm_send_try.
    + unfold Dashboard.sendMessageToBackend_try, Api.sendMessage, Task.tryFinally,
        Task.tryCatch, Task.bind, Api.getAuthToken, Task.getProp.
      cbn. apply discharges_fetch_later. intros o w2.
      destruct o as [e | r]; branches; by apply discharges_finished.
Qed.

Lemma loadDocuments_starts (w : World Dashboard.State) :
  exists req k, Dashboard.loadDocuments w = AwaitFetch req w k.
Proof.
  unfold Dashboard.loadDocuments, Api.listDocuments, Task.tryCatch, Task.bind,
    Api.getAuthToken.
  cbn. eauto.
Qed.

(** An upload raises the upload flag at most, and lowers it again. *)
Lemma dashboard_upload_footprint (button : Dashboard.UploadButton)
    (files : option (list File)) :
  respectful (both (extends Dashboard.messages) (notRaised Dashboard.isProcessing))
    (Dashboard.pickFiles button files)
  /\ answerable Dashboard.isUploading (Dashboard.pickFiles button files).
Proof.
  split.
  - assert (Hrefl : forall st,
              both (extends Dashboard.messages) (notRaised Dashboard.isProcessing) st st).
    { apply both_refl; [apply extends_refl | apply notRaised_refl]. }
    assert (Htrans : forall a b c,
              both (extends Dashboard.messages) (notRaised Dashboard.isProcessing) a b ->
              both (extends Dashboard.messages) (notRaised Dashboard.isProcessing) b c ->
              both (extends Dashboard.messages) (notRaised Dashboard.isProcessing) a c).
    { apply both_trans; [apply extends_trans | apply notRaised_trans]. }
    unfold Dashboard.pickFiles, Dashboard.handleFileUpload.
    repeat first
      [ match goal with
        | |- respectful _ (Task.tryCatch (Dashboard.handleFileUpload_try _) _) =>
            apply (respectful_weaken dashboardCalm);
            [ intros ? ? (? & ? & ?); by split | apply calm_upload_try ]
        end
      | respectful_step Hrefl Htrans
      | unfold Dashboard.appendMessage, Dashboard.setMessages, Dashboard.setIsUploading,
          Dashboard.setUploadProgress, Dashboard.setProcessingStage;
        apply respectful_setState; intros ?; split;
        first [apply extends_same; reflexivity | by eexists [_]
              | apply notRaised_same; reflexivity] ].

  - intros w. unfold Dashboard.pickFiles, Dashboard.handleFileUpload, Dashboard.appendMessage,
      Dashboard.setMessages, Dashboard.setIsUploading at 1, Dashboard.setUploadProgress at 1,
      Dashboard.setProcessingStage at 1.
    cbn [Task.bind Task.bindStep Task.getState].
    destruct (Dashboard.rendered button (comp w) && negb (Dashboard.disabled button (comp w)));
      [|cbn; apply notRaised_refl].
    destruct files as [[|file others]|]; try (cbn; apply notRaised_refl).
    destruct (negb (JsString.endsWith (JsString.toLowerCase (fileName file)) ".pdf"));
      [cbn; by apply notRaised_same|].
    destruct (Dashboard.MAX_UPLOAD_SIZE <? fileSize file); [cbn; by apply notRaised_same|].
    cbn [Task.bind Task.bindStep Task.Date_now Task.setState comp commits authToken
         localStorage now console].
    match goal with
    | |- standing _ _ (Task.tryCatch _ _ ?W) =>
        apply (standing_discharged Dashboard.isUploading (comp W))
    end.
    + apply respects_weaken with dashboardCalm; [apply dashboardCalm_uploading|].
      apply calm_upload_try.
    + unfold Dashboard.handleFileUpload_try, Api.uploadFile, Task.tryCatch, Task.bind,
        Api.getAuthToken, Task.getProp, Dashboard.includesError.
      cbn. apply discharges_fetch_later. intros o w2.
      destruct o as [e | r]; branches.
      all: apply discharges_timer_later; intros w3; cbn.
      all: apply discharges_timer_later; intros w4; cbn.
      all: apply discharges_timer_later; intros w5; branches.
      all: try (destruct (Js.prop _ "status") eqn:Hst; cbn in *; try discriminate; branches).
      all: try by apply discharges_finished.
      all: match goal with
           | |- context [Dashboard.loadDocuments ?W] =>
               destruct (loadDocuments_starts W) as (req & k & ->)
           end; cbn; by apply discharges_fetch_now.
Qed.

Lemma dashboard_actions (h : Task Dashboard.State unit) :
  DashboardAction h ->
  respectful (extends Dashboard.messages) h
  /\ answerable Dashboard.isProcessing h
  /\ answerable Dashboard.isUploading h.
Proof.
  intros [Hcalm | [-> | (button & files & ->)]]%dashboard_action_cases.
  - split; [|split].
    + by apply (respectful_weaken dashboardCalm); [apply dashboardCalm_extends|].
    + apply respectful_answerable.
      by apply (respectful_weaken dashboardCalm); [apply dashboardCalm_answering|].
    + apply respectful_answerable.
      by apply (respectful_weaken dashboardCalm); [apply dashboardCalm_uploading|].
  - destruct dashboard_send_footprint as [Hfoot Hanswer]. split; [|split].
    + apply (respectful_weaken _ _ _ (fun a b Hab => proj1 Hab) Hfoot).
    + exact Hanswer.
    + apply respectful_answerable.
      apply (respectful_weaken _ _ _ (fun a b Hab => proj2 Hab) Hfoot).
  - destruct (dashboard_upload_footprint button files) as [Hfoot Hanswer]. split; [|split].
    + apply (respectful_weaken _ _ _ (fun a b Hab => proj1 Hab) Hfoot).
    + apply respectful_answerable.
      apply (respectful_weaken _ _ _ (fun a b Hab => proj2 Hab) Hfoot).
    + exact Hanswer.
Qed.

End DashboardHandlers.

(** ** The handlers of the Chat *)

Section ChatHandlers.
Context `{Platform}.

Lemma chatCalm_refl st : chatCalm st st.
Proof. apply calm_refl. Qed.

Lemma chatCalm_trans a b c : chatCalm a b -> chatCalm b c -> chatCalm a c.
Proof. apply calm_trans. Qed.

Ltac chat_setter :=
  intros ?; unfold chatCalm, calm, both; repeat split;
  first [ apply extends_same; reflexivity
        | by eexists [_]
        | apply notRaised_same; reflexivity
        | intros Hraised; discriminate Hraised ].

Ltac chat_step :=
  first
    [ respectful_step chatCalm_refl chatCalm_trans
    | apply respectful_sendMessage; [apply chatCalm_refl | apply chatCalm_trans]
    | apply respectful_uploadFile; [apply chatCalm_refl | apply chatCalm_trans]
    | apply respectful_setState; chat_setter ].

Lemma calm_chat_send_try (render : Chat.State) :
  respectful chatCalm
    (Task.tryFinally
       (Task.tryCatch
          (Chat.sendMessageToBackend_try render)
          (fun error =>
             Task.console_error "Error:" ;;;
             Chat.appendMessage
               (Chat.mkMessage assistant
                  (JStr "Error connecting to backend. Please try again."))))
       (Chat.setIsProcessing (fun _ => false))).
Proof.
  unfold Chat.sendMessageToBackend_try, Chat.setIsProcessing, Chat.appendMessage,
    Chat.setMessages.
  repeat chat_step.
Qed.

Lemma calm_chat_upload_try (file : File) :
  respectful chatCalm
    (Task.tryCatch
       (Chat.handleFileUpload_try file)
       (fun error =>
          Chat.setIsUploading (fun _ => false) ;;;
          Chat.appendMessage
            (Chat.mkMessage assistant (JStr "Error uploading file. Please try again.")))).
Proof.
  unfold Chat.handleFileUpload_try, Chat.includesError, Chat.setIsUploading,
    Chat.appendMessage, Chat.setMessages.
  repeat chat_step.
Qed.

Lemma chat_send_footprint :
  respectful (both (extends Chat.messages) (notRaised Chat.isUploading))
    Chat.sendMessageToBackend
  /\ answerable Chat.isProcessing Chat.sendMessageToBackend.
Proof.
  split.
  - assert (Hrefl : forall st,
              both (extends Chat.messages) (notRaised Chat.isUploading) st st).
    { apply both_refl; [apply extends_refl | apply notRaised_refl]. }
    assert (Htrans : forall a b c,
              both (extends Chat.messages) (notRaised Chat.isUploading) a b ->
              both (extends Chat.messages) (notRaised Chat.isUploading) b c ->
              both (extends Chat.messages) (notRaised Chat.isUploading) a c).
    { apply both_trans; [apply extends_trans | apply notRaised_trans]. }
    unfold Chat.sendMessageToBackend.
    repeat first
      [ match goal with
        | |- respectful _ (Task.tryFinally _ _) =>
            apply (respectful_weaken chatCalm);
            [ intros ? ? (? & ? & ?); by split | apply calm_chat_send_try ]
        end
      | respectful_step Hrefl Htrans
      | unfold Chat.appendMessage, Chat.setMessages, Chat.setInputValue, Chat.setIsProcessing;
        apply respectful_setState; intros ?; split;
        first [apply extends_same; reflexivity | by eexists [_]
              | apply notRaised_same; reflexivity] ].
  - intros w. unfold Chat.sendMessageToBackend, Chat.appendMessage, Chat.setMessages,
      Chat.setInputValue, Chat.setIsProcessing at 1.
    cbn [Task.bind Task.bindStep Task.getState].
    destruct (negb (JsString.truthy (JsString.trim (Chat.inputValue (comp w))))
              || Chat.isProcessing (comp w)); [cbn; apply notRaised_refl|].
    cbn [Task.bind Task.bindStep Task.Date_now Task.setState comp commits authToken
         localStorage now console].
    match goal with
    | |- standing _ _ (Task.tryFinally _ _ ?W) =>
        apply (standing_discharged Chat.isProcessing (comp W))
    end.
    + apply respects_weaken with chatCalm; [by intros ? ? (? & ? & ?)|].
      apply calm_chat_send_try.
    + unfold Chat.sendMessageToBackend_try, Api.sendMessage, Task.tryFinally,
        Task.tryCatch, Task.bind, Api.getAuthToken, Task.getProp.
      cbn. apply discharges_fetch_later. intros o w2.
      destruct o as [e | r]; branches; by apply discharges_finished.
Qed.

Lemma chat_upload_footprint (files : option (list File)) :
  respectful (both (extends Chat.messages) (notRaised Chat.isProcessing))
    (Chat.pickFiles files)
  /\ answerable Chat.isUploading (Chat.pickFiles files).
Proof.
  split.
  - assert (Hrefl : forall st,
              both (extends Chat.messages) (notRaised Chat.isProcessing) st st).
    { apply both_refl; [apply extends_refl | apply notRaised_refl]. }
    assert (Htrans : forall a b c,
              both (extends Chat.messages) (notRaised Chat.isProcessing) a b ->
              both (extends Chat.messages) (notRaised Chat.isProcessing) b c ->
              both (extends Chat.messages) (notRaised Chat.isProcessing) a c).
    { apply both_trans; [apply extends_trans | apply notRaised_trans]. }
    unfold Chat.pickFiles, Chat.handleFileUpload.
    repeat first
      [ match goal with
        | |- respectful _ (Task.tryCatch (Chat.handleFileUpload_try _) _) =>
            apply (respectful_weaken chatCalm);
            [ intros ? ? (? & ? & ?); by split | apply calm_chat_upload_try ]
        end
      | respectful_step Hrefl Htrans
      | unfold Chat.appendMessage, Chat.setMessages, Chat.setIsUploading;
        apply respectful_setState; intros ?; split;
        first [apply extends_same; reflexivity | by eexists [_]
              | apply notRaised_same; reflexivity] ].
  - intros w. unfold Chat.pickFiles, Chat.handleFileUpload, Chat.appendMessage,
      Chat.setMessages, Chat.setIsUploading at 1.
    cbn [Task.bind Task.bindStep Task.getState].
    destruct (negb (Chat.isUploading (comp w))); [|cbn; apply notRaised_refl].
    destruct files as [[|file others]|]; try (cbn; apply notRaised_refl).
    destruct (negb (JsString.endsWith (JsString.toLowerCase (fileName file)) ".pdf"));
      [cbn; by apply notRaised_same|].
    destruct (Chat.MAX_UPLOAD_SIZE <? fileSize file); [cbn; by apply notRaised_same|].
    cbn [Task.bind Task.bindStep Task.Date_now Task.setState comp commits authToken
         localStorage now console].
    match goal with
    | |- standing _ _ (Task.tryCatch _ _ ?W) =>
        apply (standing_discharged Chat.isUploading (comp W))
    end.
    + apply respects_weaken with chatCalm; [by intros ? ? (? & ? & ?)|].
      apply calm_chat_upload_try.
    + unfold Chat.handleFileUpload_try, Api.uploadFile, Task.tryCatch, Task.bind,
        Api.getAuthToken, Task.getProp, Chat.includesError.
      cbn. apply discharges_fetch_later. intros o w2.
      destruct o as [e | r]; branches.
      all: try (destruct (Js.prop _ "status") eqn:Hst; cbn in *; try discriminate; branches).
      all: by apply discharges_finished.
Qed.

Lemma chat_actions (h : Task Chat.State unit) :
  ChatAction h ->
  respectful (extends Chat.messages) h
  /\ answerable Chat.isProcessing h
  /\ answerable Chat.isUploading h.
Proof.
  destruct 1.
  - assert (Hcalm : respectful chatCalm (Chat.setInputValue (fun _ => value))).
    { unfold Chat.setInputValue. apply respectful_setState. chat_setter. }
    split; [|split].
    + by apply (respectful_weaken chatCalm); [intros ? ? (? & ? & ?)|].
    + apply respectful_answerable.
      by apply (respectful_weaken chatCalm); [intros ? ? (? & ? & ?)|].
    + apply respectful_answerable.
      by apply (respectful_weaken chatCalm); [intros ? ? (? & ? & ?)|].
  - destruct chat_send_footprint as [Hfoot Hanswer]. split; [|split].
    + apply (respectful_weaken _ _ _ (fun a b Hab => proj1 Hab) Hfoot).
    + exact Hanswer.
    + apply respectful_answerable.
      apply (respectful_weaken _ _ _ (fun a b Hab => proj2 Hab) Hfoot).
  - destruct (chat_upload_footprint files) as [Hfoot Hanswer]. split; [|split].
    + apply (respectful_weaken _ _ _ (fun a b Hab => proj1 Hab) Hfoot).
    + apply respectful_answerable.
      apply (respectful_weaken _ _ _ (fun a b Hab => proj2 Hab) Hfoot).
    + exact Hanswer.
Qed.

End ChatHandlers.

(** ** No handler rejects *)

Section Resolving.
Context `{Platform} {S : Type}.

Lemma resolves_bindStep {A B} (s : Step S A) (f : A -> Task S B) :
  resolves s -> (forall a, resolving (f a)) -> resolves (Task.bindStep s f).
Proof.
  intros Hs Hf. induction Hs as [a w | req w k _ IH | ms w k _ IH]; cbn.
  - apply Hf.
  - by constructor.
  - by constructor.
Qed.

Lemma resolves_catchStep {A} (s : Step S A) (h : JsError -> Task S A) :
  (forall e, resolving (h e)) -> resolves (Task.catchStep s h).
Proof.
  intros Hh. induction s as [[a | e] w | req w k IH | ms w k IH]; cbn.
  - constructor.
  - apply Hh.
  - constructor. intros o w2. apply IH.
  - constructor. intros w2. apply IH.
Qed.

Lemma resolves_finallyStep {A} (s : Step S A) (f : Task S unit) :
  resolves s -> resolving f -> resolves (Task.finallyStep s f).
Proof.
  intros Hs Hf. induction Hs as [a w | req w k _ IH | ms w k _ IH]; cbn.
  - apply resolves_bindStep; [apply Hf|]. intros _ w'. constructor.
  - by constructor.
  - by constructor.
Qed.

Lemma resolving_ret {A} (a : A) : resolving (S := S) (Task.ret a).
Proof. intros w. constructor. Qed.

Lemma resolving_bind {A B} (m : Task S A) (f : A -> Task S B) :
  resolving m -> (forall a, resolving (f a)) -> resolving (Task.bind m f).
Proof. intros Hm Hf w. apply resolves_bindStep; [apply Hm | exact Hf]. Qed.

Lemma resolving_tryCatch {A} (m : Task S A) (h : JsError -> Task S A) :
  (forall e, resolving (h e)) -> resolving (Task.tryCatch m h).
Proof. intros Hh w. by apply resolves_catchStep. Qed.

Lemma resolving_tryFinally {A} (m : Task S A) (f : Task S unit) :
  resolving m -> resolving f -> resolving (Task.tryFinally m f).
Proof. intros Hm Hf w. apply resolves_finallyStep; [apply Hm | exact Hf]. Qed.

Lemma resolving_getWorld : resolving (S := S) Task.getWorld.
Proof. intros w. constructor. Qed.

Lemma resolving_getState : resolving (S := S) Task.getState.
Proof. intros w. constructor. Qed.

Lemma resolving_Date_now : resolving (S := S) Task.Date_now.
Proof. intros w. constructor. Qed.

Lemma resolving_console_error (label : string) : resolving (S := S) (Task.console_error label).
Proof. intros w. constructor. Qed.

Lemma resolving_setState (f : S -> S) : resolving (Task.setState f).
Proof. intros w. constructor. Qed.

Lemma resolving_mutate (f : S -> S) : resolving (Task.mutate f).
Proof. intros w. constructor. Qed.

Lemma resolving_sleep (ms : Z) : resolving (S := S) (Task.sleep ms).
Proof. intros w. constructor. intros w2. constructor. Qed.

Section Session.
Context (action : Task S unit -> Prop).
Hypothesis action_resolving : forall h, action h -> resolving h.

Lemma settle_resolves (s : Step S unit) (others : list Loop.Suspended)
    (errors : list JsError) :
  resolves s ->
  Forall waits others ->
  Loop.unhandled (Loop.settle s others errors) = errors
  /\ Forall waits (Loop.pending (Loop.settle s others errors)).
Proof.
  intros Hs Ho. destruct Hs as [a w | req w k Hk | ms w k Hk]; cbn.
  - by split.
  - split; [done|]. apply Forall_app. split; [exact Ho | by constructor].
  - split; [done|]. apply Forall_app. split; [exact Ho | by constructor].
Qed.

Lemma reaches_resolves (l l' : Loop.t) :
  reaches action l l' ->
  Forall waits (Loop.pending l) ->
  Loop.unhandled l' = Loop.unhandled l /\ Forall waits (Loop.pending l').
Proof.
  intros Hreach Hl.
  induction Hreach as [| l' h _ [IHe IHp] Hh | l' i o _ [IHe IHp] | l' i _ [IHe IHp]
                       | l' ms _ [IHe IHp]].
  - by split.
  - destruct (settle_resolves (h (Loop.world l')) (Loop.pending l') (Loop.unhandled l')
                (action_resolving h Hh (Loop.world l')) IHp) as [He Hp].
    split; [by rewrite <- IHe | exact Hp].
  - unfold Loop.deliver. destruct (Loop.pending l' !! i) as [[req k | ms k]|] eqn:Hi; try done.
    assert (Hk : waits (Loop.OnFetch req k)).
    { eapply Forall_lookup_1; [exact IHp | exact Hi]. }
    destruct (settle_resolves (k o (Loop.world l')) (delete i (Loop.pending l'))
                (Loop.unhandled l') (Hk o (Loop.world l')) (Forall_delete _ _ i IHp))
      as [He Hp].
    split; [by rewrite <- IHe | exact Hp].
  - unfold Loop.fire. destruct (Loop.pending l' !! i) as [[req k | ms k]|] eqn:Hi; try done.
    assert (Hk : waits (Loop.OnTimer ms k)).
    { eapply Forall_lookup_1; [exact IHp | exact Hi]. }
    destruct (settle_resolves (k (Loop.world l')) (delete i (Loop.pending l'))
                (Loop.unhandled l') (Hk (Loop.world l')) (Forall_delete _ _ i IHp))
      as [He Hp].
    split; [by rewrite <- IHe | exact Hp].
  - by split.
Qed.

End Session.
End Resolving.

(** One step in showing that a task resolves: nothing is asked of the body
    of a [try], whose errors its [catch] takes. *)
Ltac resolving_step :=
  first
    [ apply resolving_ret | apply resolving_getWorld | apply resolving_getState
    | apply resolving_Date_now | apply resolving_console_error | apply resolving_setState
    | apply resolving_mutate | apply resolving_sleep
    | apply resolving_bind; [|intros ?]
    | apply resolving_tryCatch; intros ?
    | apply resolving_tryFinally
    | match goal with
      | |- resolving (if ?b then _ else _) => destruct b
      | |- resolving (match ?x with _ => _ end) => destruct x
      end ].

Section HandlersResolve.
Context `{Platform}.

Lemma dashboard_actions_resolve (h : Task Dashboard.State unit) :
  DashboardAction h -> resolving h.
Proof.
  assert (Hw : forall k v, resolving (Dashboard.localStorage_setItem k v)).
  { intros k v w. constructor. }
  destruct 1;
    unfold Dashboard.setInputValue, Dashboard.sendMessageToBackend, Dashboard.pickFiles,
      Dashboard.handleFileUpload, Dashboard.handleDeleteDocument, Dashboard.loadDocuments,
      Dashboard.selectTab, Dashboard.onTemperatureChange, Dashboard.onModelChange,
      Dashboard.onDarkModeChange, Dashboard.runEffects, Dashboard.saveTemperature,
      Dashboard.saveModel, Dashboard.saveDarkMode, Dashboard.typeChunkSize,
      Dashboard.typeChunkOverlap, Dashboard.typeMaxTokens, Dashboard.appendMessage,
      Dashboard.setMessages, Dashboard.setIsProcessing, Dashboard.setProcessingStage,
      Dashboard.setIsUploading, Dashboard.setUploadProgress, Dashboard.setActiveTab,
      Dashboard.setTemperature, Dashboard.setModel, Dashboard.setDarkMode;
    repeat first [apply Hw | resolving_step].
Qed.

Lemma chat_actions_resolve (h : Task Chat.State unit) : ChatAction h -> resolving h.
Proof.
  destruct 1;
    unfold Chat.setInputValue, Chat.sendMessageToBackend, Chat.pickFiles,
      Chat.handleFileUpload, Chat.appendMessage, Chat.setMessages, Chat.setIsProcessing,
      Chat.setIsUploading;
    repeat resolving_step.
Qed.

End HandlersResolve.

(** ** Three invariants of a session *)

(** X18. The timeline is append-only under every interleaving.  In a
    session of the Dashboard, or of the Chat, started with nothing in
    flight, event handlers are called, responses arrive and timers fire in
    any order, and time passes; whatever the order and the answers, the
    messages shown at the start are still there, in their order, with the new
    ones after them: no handler resumed late overwrites what another one
    appended meanwhile. *)
Theorem timeline_is_append_only `{Platform} :
  (forall (w : World Dashboard.State) l,
     reaches DashboardAction (Loop.start w) l ->
     exists new, Dashboard.messages (comp (Loop.world l)) = Dashboard.messages (comp w) ++ new)
  /\ (forall (w : World Chat.State) l,
       reaches ChatAction (Loop.start w) l ->
       exists new, Chat.messages (comp (Loop.world l)) = Chat.messages (comp w) ++ new).
Proof.
  split; intros w l Hreach.
  - exact (proj1 (reaches_respects (extends Dashboard.messages) DashboardAction
                    (extends_refl _) (extends_trans _)
                    (fun h Hh => proj1 (dashboard_actions h Hh))
                    (Loop.start w) l Hreach (List.Forall_nil _))).
  - exact (proj1 (reaches_respects (extends Chat.messages) ChatAction
                    (extends_refl _) (extends_trans _)
                    (fun h Hh => proj1 (chat_actions h Hh))
                    (Loop.start w) l Hreach (List.Forall_nil _))).
Qed.

(** X19. No spinner is left behind.  In a session of the Dashboard, or of
    the Chat, started idle, with nothing in flight and neither flag raised,
    whenever nothing is in flight again the page is neither answering nor
    uploading, whatever the handlers called, the order of the answers and
    the answers themselves: every handler that raises a flag lowers it
    before it ends, on every path, and no other handler raises it. *)
Theorem no_spinner_left_behind `{Platform} :
  (forall (w : World Dashboard.State) l,
     Dashboard.isProcessing (comp w) = false ->
     Dashboard.isUploading (comp w) = false ->
     reaches DashboardAction (Loop.start w) l ->
     Loop.pending l = [] ->
     Dashboard.isProcessing (comp (Loop.world l)) = false
     /\ Dashboard.isUploading (comp (Loop.world l)) = false)
  /\ (forall (w : World Chat.State) l,
       Chat.isProcessing (comp w) = false ->
       Chat.isUploading (comp w) = false ->
       reaches ChatAction (Loop.start w) l ->
       Loop.pending l = [] ->
       Chat.isProcessing (comp (Loop.world l)) = false
       /\ Chat.isUploading (comp (Loop.world l)) = false).
Proof.
  split; intros w l Hidle Hfree Hreach Hnone; split.
  - apply settled_idle; [|exact Hnone].
    apply (reaches_settled _ DashboardAction (fun h Hh => proj1 (proj2 (dashboard_actions h Hh)))
             (Loop.start w) l Hreach).
    by apply started_settled.
  - apply settled_idle; [|exact Hnone].
    apply (reaches_settled _ DashboardAction (fun h Hh => proj2 (proj2 (dashboard_actions h Hh)))
             (Loop.start w) l Hreach).
    by apply started_settled.
  - apply settled_idle; [|exact Hnone].
    apply (reaches_settled _ ChatAction (fun h Hh => proj1 (proj2 (chat_actions h Hh)))
             (Loop.start w) l Hreach).
    by apply started_settled.
  - apply settled_idle; [|exact Hnone].
    apply (reaches_settled _ ChatAction (fun h Hh => proj2 (proj2 (chat_actions h Hh)))
             (Loop.start w) l Hreach).
    by apply started_settled.
Qed.

(** X20. No handler rejects.  In a session of the Dashboard, or of the
    Chat, started with nothing in flight, no promise of an event handler is
    ever rejected, whatever the order and the answers: each handler catches
    what its gateway call and its own reading of the answer throw, and
    neither its [catch] nor its [finally] throws. *)
Theorem no_unhandled_rejection `{Platform} :
  (forall (w : World Dashboard.State) l,
     reaches DashboardAction (Loop.start w) l -> Loop.unhandled l = [])
  /\ (forall (w : World Chat.State) l,
       reaches ChatAction (Loop.start w) l -> Loop.unhandled l = []).
Proof.
  split; intros w l Hreach.
  - exact (proj1 (reaches_resolves DashboardAction dashboard_actions_resolve
                    (Loop.start w) l Hreach (List.Forall_nil _))).
  - exact (proj1 (reaches_resolves ChatAction chat_actions_resolve
                    (Loop.start w) l Hreach (List.Forall_nil _))).
Qed.

Lemma interleaved_reached :
  reaches DashboardAction
    (Loop.start (Sample.dashboard "What is the answer?" false false Dashboard.chat []))
    Sample.interleaved.
Proof.
  unfold Sample.interleaved, Sample.asked.
  apply reaches_deliver, reaches_fire, reaches_fire, reaches_fire, reaches_deliver,
    reaches_deliver.
  apply reaches_dispatch; [|apply dashboard_sends].
  apply reaches_dispatch; [|apply dashboard_picks].
  apply reaches_here.
Qed.

Lemma timeline_witness :
  reaches DashboardAction
    (Loop.start (Sample.dashboard "What is the answer?" false false Dashboard.chat []))
    Sample.interleaved
  /\ exists new,
       Dashboard.messages (comp (Loop.world Sample.interleaved))
       = Dashboard.messages
           (comp (Sample.dashboard "What is the answer?" false false Dashboard.chat []))
         ++ new.
Proof.
  split; [exact interleaved_reached|].
  exact (proj1 (timeline_is_append_only (H := Reference.platform))
           (Sample.dashboard "What is the answer?" false false Dashboard.chat [])
           Sample.interleaved interleaved_reached).
Defined.

Lemma interleaved_idle : length (Loop.pending Sample.interleaved) = 0%nat.
Proof. vm_compute. reflexivity. Qed.

Lemma no_spinner_witness :
  (reaches DashboardAction
     (Loop.start (Sample.dashboard "What is the answer?" false false Dashboard.chat []))
     Sample.interleaved
   /\ Loop.pending Sample.interleaved = [])
  /\ Dashboard.isProcessing (comp (Loop.world Sample.interleaved)) = false
  /\ Dashboard.isUploading (comp (Loop.world Sample.interleaved)) = false.
Proof.
  assert (Hnone : Loop.pending Sample.interleaved = []).
  { apply length_zero_iff_nil, interleaved_idle. }
  split; [split; [exact interleaved_reached | exact Hnone]|].
  exact (proj1 (no_spinner_left_behind (H := Reference.platform))
           (Sample.dashboard "What is the answer?" false false Dashboard.chat [])
           Sample.interleaved eq_refl eq_refl interleaved_reached Hnone).
Defined.

Lemma no_unhandled_rejection_witness :
  reaches DashboardAction
    (Loop.start (Sample.dashboard "What is the answer?" false false Dashboard.chat []))
    Sample.interleaved
  /\ Loop.unhandled Sample.interleaved = [].
Proof.
  split; [exact interleaved_reached|].
  exact (proj1 (no_unhandled_rejection (H := Reference.platform))
           (Sample.dashboard "What is the answer?" false false Dashboard.chat [])
           Sample.interleaved interleaved_reached).
Defined.

(** ** A file that is turned away *)

(** X21. A file that fails validation is told the first check it fails, in
    both components: a name that does not end in ".pdf" is answered with the
    request for a PDF file even when the file is also too large, and only a
    file with the right name is told that it exceeds 10 MB.  In the Dashboard
    the message carries a time stamp and its decimal rendering as id. *)
Theorem rejection_names_the_first_failure `{Platform} (file : File) (others : list File) :
  isInvalid file ->
  exists said,
    (~ hasPdfExtension (fileName file) -> said = "Please upload a PDF file.")
    /\ (hasPdfExtension (fileName file) ->
        said = "File size exceeds 10MB limit. Please upload a smaller file.")
    /\ (forall w : World Dashboard.State,
         exists w' t,
           Dashboard.handleFileUpload (Some (file :: others)) w = Finished (Return tt) w'
           /\ Dashboard.messages (comp w')
              = Dashboard.messages (comp w)
                ++ [MessageItem.mk (JsString.ofZ t) assistant (JStr said) (DateAt t)])
    /\ (forall w : World Chat.State,
         exists w' : World Chat.State,
           Chat.handleFileUpload (Some (file :: others)) w = Finished (Return tt) w'
           /\ Chat.messages (comp w')
              = Chat.messages (comp w) ++ [Chat.mkMessage assistant (JStr said)]).
Proof.
  intros [E | [E1 E2]]%invalid_cases.
  - exists "Please upload a PDF file.". split; [done|]. split.
    { intros Hpdf%extension_test. rewrite Hpdf in E. discriminate. }
    split; intros w; unfold Dashboard.handleFileUpload, Chat.handleFileUpload; rewrite E; cbn.
    + by eexists _, _.
    + by eexists.
  - exists "File size exceeds 10MB limit. Please upload a smaller file.". split.
    { intros Hno%extension_test_false. rewrite Hno in E1. discriminate. }
    split; [done|].
    split; intros w; unfold Dashboard.handleFileUpload, Chat.handleFileUpload;
      change Chat.MAX_UPLOAD_SIZE with Dashboard.MAX_UPLOAD_SIZE; rewrite E1, E2; cbn.
    + by eexists _, _.
    + by eexists.
Qed.

Lemma rejection_witness :
  isInvalid (mkFile "scan.png" (11 * Sample.MiB))
  /\ exists w' : World Chat.State,
       Chat.handleFileUpload (H := Reference.platform)
         (Some [mkFile "scan.png" (11 * Sample.MiB)]) (Sample.chat "" false false)
       = Finished (Return tt) w'
       /\ Chat.messages (comp w')
          = Chat.messages (comp (Sample.chat "" false false))
            ++ [Chat.mkMessage assistant (JStr "Please upload a PDF file.")].
Proof.
  assert (Hno : ~ hasPdfExtension (fileName (mkFile "scan.png" (11 * Sample.MiB)))).
  { by apply extension_test_false. }
  assert (Hbad : isInvalid (mkFile "scan.png" (11 * Sample.MiB))) by (by left).
  split; [exact Hbad|].
  destruct (rejection_names_the_first_failure (H := Reference.platform)
              (mkFile "scan.png" (11 * Sample.MiB)) [] Hbad)
    as (said & Hsaid & _ & _ & Hchat).
  destruct (Hchat (Sample.chat "" false false)) as (w' & Hrun & Hm).
  exists w'. split; [exact Hrun|]. by rewrite Hm, (Hsaid Hno).
Defined.
